(** * The ETL handler of [lambda_src/handler.py]: fetch, validate,
      transform, store, metrics.

    A shallow embedding of the Python module.  Python values are a tagged
    union, strings are sequences of code points, and the functions of the
    module are computations in a small state-and-exception monad whose
    state records what the run has observed of the outside world (clock
    readings, HTTP requests) and the effects it has produced (log lines,
    sleeps, store writes, metrics), in order. *)

From Stdlib Require Decimal DecimalPos.
From Stdlib Require Import ZArith NArith Bool Lia String Ascii List.
Import ListNotations.

Local Open Scope Z_scope.
Set Warnings "-register-all".

(** ** Python values *)

(** A Python [str] is a sequence of Unicode code points; [len] and slicing
    count code points. *)
Definition pystr := list N.

(** An ASCII literal as a Python string. *)
Definition u (s : string) : pystr := map N_of_ascii (list_ascii_of_string s).

Fixpoint str_eqb (a b : pystr) : bool :=
  match a, b with
  | [], [] => true
  | x :: a', y :: b' => N.eqb x y && str_eqb a' b'
  | _, _ => false
  end.

(** The values [json.loads] produces.  A float is carried as its binary64
    bit pattern; a dict as its key/value pairs in insertion order, looked
    up by first match. *)
Inductive pyval :=
| PNone
| PBool (b : bool)
| PInt (z : Z)
| PFloat (bits : N)
| PStr (s : pystr)
| PList (items : list pyval)
| PDict (kvs : list (pystr * pyval)).

Fixpoint dict_lookup (k : pystr) (kvs : list (pystr * pyval)) : option pyval :=
  match kvs with
  | [] => None
  | (k', v) :: rest => if str_eqb k k' then Some v else dict_lookup k rest
  end.

(** [isinstance(v, (str, int))]: [bool] is a subclass of [int]. *)
Definition isinstance_str_int (v : pyval) : bool :=
  match v with
  | PStr _ | PInt _ | PBool _ => true
  | _ => false
  end.

Definition is_dict (v : pyval) : bool :=
  match v with PDict _ => true | _ => false end.

(** *** [str.strip], slicing, substring test *)

(** The code points [str.strip()] removes (Py_UNICODE_ISSPACE). *)
Definition is_space (c : N) : bool :=
  ((9 <=? c) && (c <=? 13) || (28 <=? c) && (c <=? 32)
   || (c =? 133) || (c =? 160) || (c =? 5760)
   || (8192 <=? c) && (c <=? 8202)
   || (c =? 8232) || (c =? 8233) || (c =? 8239) || (c =? 8287)
   || (c =? 12288))%N.

Fixpoint lstrip (s : pystr) : pystr :=
  match s with
  | c :: s' => if is_space c then lstrip s' else s
  | [] => []
  end.

Definition rstrip (s : pystr) : pystr := rev (lstrip (rev s)).

Definition strip (s : pystr) : pystr := rstrip (lstrip s).

(** [s[:n]] for a non-negative literal [n]. *)
Definition slice_to (n : nat) (s : pystr) : pystr := firstn n s.

Fixpoint starts_with (p s : pystr) : bool :=
  match p, s with
  | [], _ => true
  | a :: p', b :: s' => N.eqb a b && starts_with p' s'
  | _ :: _, [] => false
  end.

(** [p in s] on two strings. *)
Fixpoint contains_str (p s : pystr) : bool :=
  starts_with p s ||
  match s with
  | [] => false
  | _ :: s' => contains_str p s'
  end.

(** *** [str] of an integer *)

(** The code points of a run of decimal digits. *)
Fixpoint uint_digits (d : Decimal.uint) : pystr :=
  match d with
  | Decimal.Nil => []
  | Decimal.D0 r => 48%N :: uint_digits r
  | Decimal.D1 r => 49%N :: uint_digits r
  | Decimal.D2 r => 50%N :: uint_digits r
  | Decimal.D3 r => 51%N :: uint_digits r
  | Decimal.D4 r => 52%N :: uint_digits r
  | Decimal.D5 r => 53%N :: uint_digits r
  | Decimal.D6 r => 54%N :: uint_digits r
  | Decimal.D7 r => 55%N :: uint_digits r
  | Decimal.D8 r => 56%N :: uint_digits r
  | Decimal.D9 r => 57%N :: uint_digits r
  end.

(** The decimal digits, with a minus sign for a negative number.  The
    interpreter's cap on the digits of an int/str conversion is left out:
    [json.loads] is under the same cap and yields no integer beyond it. *)
Definition str_int (z : Z) : pystr :=
  match Z.to_int z with
  | Decimal.Pos d => uint_digits d
  | Decimal.Neg d => 45%N :: uint_digits d
  end.

Definition str_bool (b : bool) : pystr :=
  if b then u "True" else u "False".

(** ** Exceptions *)

Inductive exc_class :=
| TypeError | AttributeError | KeyError | ValueError | RuntimeError
| OverflowError | URLError | OtherError.

(** What [resp.headers.get("Retry-After")] holds, seen through [int()]:
    no such header, a text [int()] parses to [d], or a text it rejects. *)
Inductive header :=
| HeaderAbsent
| HeaderInt (d : Z)
| HeaderJunk (raw : pystr).

(** [urllib.error.HTTPError] keeps the status, the reason and the
    response headers; every other exception is its class and the text
    [str(exc)] gives. *)
Inductive exc :=
| HTTPError (code : Z) (reason : pystr) (headers : header)
| PyError (cls : exc_class) (text : pystr).

Definition str_exc (e : exc) : pystr :=
  match e with
  | HTTPError code reason _ =>
      u "HTTP Error " ++ str_int code ++ u ": " ++ reason
  | PyError _ text => text
  end.

(** [str(last_error)] where [last_error] may still be [None]. *)
Definition str_opt_exc (e : option exc) : pystr :=
  match e with
  | Some e => str_exc e
  | None => u "None"
  end.

(** Faults the interpreter and the library raise on behalf of the code;
    their message texts come from the environment. *)
Inductive fault :=
| NotAContainer (v : pyval)
| NoGetMethod (v : pyval)
| BadSubscript (v : pyval)
| MissingKey (k : pystr)
| NotIterable (v : pyval)
| NoLen (v : pyval)
| BadIntLiteral (raw : pystr)
| NegativeSleep
| SleepTooLong.

(** ** Records, log lines, effects *)

(** The dict [transform_item] builds, one field per key. *)
Record normalized := {
  rec_id : pystr;
  rec_timestamp : pystr;
  rec_title : pystr;
  rec_body : pystr;
  rec_user_id : pystr;
  rec_source_url : pystr;
  rec_processed_at : pystr
}.

(** The message and extra fields of each [log(...)] call site. *)
Inductive log_msg :=
| LTableStatus (status : pystr)
| LHealthFailed (e : exc)
| LAttempt (attempt max_retries : Z) (url : pystr)
| LRateLimited (retry_after : Z)
| LFetched (count : Z)
| LHttp429 (wait attempt : Z)
| LHttpError (code : Z) (reason : pystr) (attempt wait : Z)
| LNetworkError (e : exc) (attempt wait : Z)
| LMissingField (field : pystr) (item_id : pyval)
| LWrongType (field : pystr) (item_id : pyval)
| LProcessed (valid invalid : Z)
| LStored (count : Z)
| LMetricFailed (name : string) (e : exc)
| LInvoked (* the text of the event is not kept *)
| LDone (stored : Z) (t_start t_end : N)
| LFatal (error : pystr) (t_start t_end : N).

Inductive metric_value :=
| MCount (n : Z)
| MDuration (t_start t_end : N).

Inductive event :=
| ELog (time : pystr) (level step : string) (msg : log_msg)
| ESleep (seconds : Z)
| ERequest (url : pystr)
| EDescribeTable (table : pystr)
| EBatchWrite (table : pystr) (items : list normalized)
| EMetric (name : string) (value : metric_value) (unit : string).

(** What one [urlopen] call does: a response (status, Retry-After header,
    body as [json.loads(resp.read().decode())] yields it), an [HTTPError],
    or any other exception. *)
Inductive body :=
| BodyJson (data : pyval)
| BodyError (cls : exc_class) (text : pystr).

Inductive http_outcome :=
| Response (status : Z) (retry_after : header) (payload : body)
| RaisesHTTPError (code : Z) (reason : pystr) (headers : header)
| RaisesOther (cls : exc_class) (text : pystr).

(** What the run returns to its invoker. *)
Inductive response :=
| Resp200 (stored : Z) (t_start t_end : N)
| Resp500 (error : pystr).

(** ** The state-and-exception monad *)

Record world := {
  clock_reads : nat;
  requests : nat;
  metric_calls : nat;
  trace : list event
}.

Inductive result (A : Type) :=
| Ok (a : A)
| Raise (e : exc).
Arguments Ok {A} a.
Arguments Raise {A} e.

Definition M (A : Type) : Type := world -> result A * world.

Definition ret {A} (a : A) : M A := fun w => (Ok a, w).

Definition raise {A} (e : exc) : M A := fun w => (Raise e, w).

Definition bind {A B} (m : M A) (k : A -> M B) : M B :=
  fun w =>
    match m w with
    | (Ok a, w') => k a w'
    | (Raise e, w') => (Raise e, w')
    end.

(** [try: m  except Exception as e: h e]. *)
Definition try_catch {A} (m : M A) (h : exc -> M A) : M A :=
  fun w =>
    match m w with
    | (Ok a, w') => (Ok a, w')
    | (Raise e, w') => h e w'
    end.

Notation "x <- m ;; k" := (bind m (fun x => k))
  (at level 61, m at next level, right associativity).
Notation "m ;; k" := (bind m (fun _ => k))
  (at level 61, right associativity).

(** The trace lists the most recent effect first. *)
Definition emit (e : event) : M unit :=
  fun w =>
    (Ok tt, {| clock_reads := clock_reads w; requests := requests w;
               metric_calls := metric_calls w; trace := e :: trace w |}).

Definition tick : M nat :=
  fun w =>
    (Ok (clock_reads w),
     {| clock_reads := S (clock_reads w); requests := requests w;
        metric_calls := metric_calls w; trace := trace w |}).

Definition next_request : M nat :=
  fun w =>
    (Ok (requests w),
     {| clock_reads := clock_reads w; requests := S (requests w);
        metric_calls := metric_calls w; trace := trace w |}).

Definition next_metric_call : M nat :=
  fun w =>
    (Ok (metric_calls w),
     {| clock_reads := clock_reads w; requests := requests w;
        metric_calls := S (metric_calls w); trace := trace w |}).

(** ** The environment of a run *)

(** The module-level configuration and the collaborators the module
    calls: the clocks, [urlopen], the DynamoDB and CloudWatch clients,
    and the interpreter for what the model leaves to it. *)
Record env := {
  TABLE_NAME : pystr;
  API_URL : pystr;
  MAX_RETRIES : Z;
  now : nat -> pystr;
  time_time : nat -> N;
  urlopen : nat -> http_outcome;
  describe_table : result pystr;
  batch_writer : list normalized -> option exc;
  put_metric_data : nat -> option exc;
  str_other : pyval -> pystr;
  fault_text : fault -> pystr
}.

(** ** The module's functions *)

Section Handler.

Variable E : env.

(** *** Interpreter operations the code relies on *)

Definition interp_error {A} (cls : exc_class) (f : fault) : M A :=
  raise (PyError cls (fault_text E f)).

(** [str(v)]. *)
Definition py_str (v : pyval) : pystr :=
  match v with
  | PStr s => s
  | PInt z => str_int z
  | PBool b => str_bool b
  | _ => str_other E v
  end.

(** [field in item]. *)
Definition py_contains (item : pyval) (field : pystr) : M bool :=
  match item with
  | PDict kvs =>
      ret (match dict_lookup field kvs with Some _ => true | None => false end)
  | PList items =>
      ret (existsb (fun v => match v with
                             | PStr s => str_eqb field s
                             | _ => false
                             end) items)
  | PStr s => ret (contains_str field s)
  | _ => interp_error TypeError (NotAContainer item)
  end.

(** [item.get(key)]. *)
Definition py_get (item : pyval) (key : pystr) : M pyval :=
  match item with
  | PDict kvs =>
      ret (match dict_lookup key kvs with Some v => v | None => PNone end)
  | _ => interp_error AttributeError (NoGetMethod item)
  end.

(** [item[key]] for a string key. *)
Definition py_subscript (item : pyval) (key : pystr) : M pyval :=
  match item with
  | PDict kvs =>
      match dict_lookup key kvs with
      | Some v => ret v
      | None => interp_error KeyError (MissingKey key)
      end
  | _ => interp_error TypeError (BadSubscript item)
  end.

(** The items a [for] loop over [raw] visits. *)
Definition py_iter (raw : pyval) : M (list pyval) :=
  match raw with
  | PList items => ret items
  | PDict kvs => ret (map (fun kv => PStr (fst kv)) kvs)
  | PStr s => ret (map (fun c => PStr [c]) s)
  | _ => interp_error TypeError (NotIterable raw)
  end.

(** [len(data)]. *)
Definition py_len (data : pyval) : M Z :=
  match data with
  | PList items => ret (Z.of_nat (length items))
  | PDict kvs => ret (Z.of_nat (length kvs))
  | PStr s => ret (Z.of_nat (length s))
  | _ => interp_error TypeError (NoLen data)
  end.

(** [int(resp.headers.get("Retry-After", 5))]. *)
Definition retry_after_of (h : header) : M Z :=
  match h with
  | HeaderAbsent => ret 5
  | HeaderInt d => ret d
  | HeaderJunk raw => interp_error ValueError (BadIntLiteral raw)
  end.

(** The longest sleep [time.sleep] accepts, in whole seconds: the length
    is kept in 64-bit nanoseconds, so it is the quotient of [2^63 - 1] by
    [10^9].  [2 ** 33] is below it and [2 ** 34] above. *)
Definition sleep_max : Z := 9223372036.

(** [time.sleep(seconds)] for an integer length: [ValueError] on a
    negative one, [OverflowError] on one beyond [sleep_max]. *)
Definition sleep (seconds : Z) : M unit :=
  if seconds <? 0 then interp_error ValueError NegativeSleep
  else if sleep_max <? seconds then interp_error OverflowError SleepTooLong
  else emit (ESleep seconds).

(** [datetime.now(timezone.utc).isoformat()]. *)
Definition now_iso : M pystr :=
  n <- tick ;; ret (now E n).

(** [time.time()]. *)
Definition time_now : M N :=
  n <- tick ;; ret (time_time E n).

Definition log (level step : string) (msg : log_msg) : M unit :=
  t <- now_iso ;; emit (ELog t level step msg).

(** *** 1. Health check *)

Definition health_check : M bool :=
  emit (EDescribeTable (TABLE_NAME E)) ;;
  match describe_table E with
  | Ok status =>
      log "INFO" "health_check" (LTableStatus status) ;;
      ret (str_eqb status (u "ACTIVE"))
  | Raise e =>
      log "ERROR" "health_check" (LHealthFailed e) ;;
      ret false
  end.

(** *** 2. Fetch with retry and rate-limit handling *)

(** The body of the [try] of one attempt: [Some data] is [return data],
    [None] is [continue]. *)
Definition try_request (url : pystr) : M (option pyval) :=
  n <- next_request ;;
  emit (ERequest url) ;;
  match urlopen E n with
  | RaisesHTTPError code reason headers => raise (HTTPError code reason headers)
  | RaisesOther cls text => raise (PyError cls text)
  | Response status retry_after_header payload =>
      if status =? 429 then
        retry_after <- retry_after_of retry_after_header ;;
        log "WARN" "fetch" (LRateLimited retry_after) ;;
        sleep retry_after ;;
        ret None
      else
        data <- match payload with
                | BodyJson v => ret v
                | BodyError cls text => raise (PyError cls text)
                end ;;
        count <- py_len data ;;
        log "INFO" "fetch" (LFetched count) ;;
        ret (Some data)
  end.

(** One iteration of the [for attempt in range(...)] loop: the result of
    the attempt and the value of [last_error] after it.  The loop numbers
    its attempts from 1, so [2 ** attempt] is an integer power.  The
    sleeps of the [except] blocks are outside the [try]: an exception of
    theirs leaves the function. *)
Definition fetch_attempt (url : pystr) (attempt : Z) (last_error : option exc)
  : M (option pyval * option exc) :=
  log "INFO" "fetch" (LAttempt attempt (MAX_RETRIES E) url) ;;
  try_catch
    (r <- try_request url ;; ret (r, last_error))
    (fun exc =>
       match exc with
       | HTTPError code reason _ =>
           if code =? 429 then
             let wait := 2 ^ attempt in
             log "WARN" "fetch" (LHttp429 wait attempt) ;;
             sleep wait ;;
             ret (None, Some exc)
           else
             let wait := 2 ^ attempt in
             log "ERROR" "fetch" (LHttpError code reason attempt wait) ;;
             sleep wait ;;
             ret (None, Some exc)
       | PyError _ _ =>
           let wait := 2 ^ attempt in
           log "ERROR" "fetch" (LNetworkError exc attempt wait) ;;
           sleep wait ;;
           ret (None, Some exc)
       end).

Definition fetch_failed_msg (last_error : option exc) : pystr :=
  u "Fetch failed after " ++ str_int (MAX_RETRIES E) ++ u " attempts: "
    ++ str_opt_exc last_error.

(** The loop with [n] iterations left, the next one numbered [attempt]. *)
Fixpoint fetch_loop (url : pystr) (n : nat) (attempt : Z)
    (last_error : option exc) : M pyval :=
  match n with
  | O => raise (PyError RuntimeError (fetch_failed_msg last_error))
  | S n' =>
      r <- fetch_attempt url attempt last_error ;;
      match r with
      | (Some data, _) => ret data
      | (None, last_error') => fetch_loop url n' (attempt + 1) last_error'
      end
  end.

(** [range(1, MAX_RETRIES + 1)] has [MAX_RETRIES] elements, none when
    [MAX_RETRIES] is not positive. *)
Definition fetch_data (url : pystr) : M pyval :=
  fetch_loop url (Z.to_nat (MAX_RETRIES E)) 1 None.

(** *** 3. Validation and transformation *)

Definition required : list pystr := [u "id"; u "title"; u "body"; u "userId"].

(** The [for field in required] loop of [validate_item] over the fields
    still to check. *)
Fixpoint validate_fields (fields : list pystr) (item : pyval) : M bool :=
  match fields with
  | [] => ret true
  | field :: rest =>
      present <- py_contains item field ;;
      if negb present then
        item_id <- py_get item (u "id") ;;
        log "WARN" "validate" (LMissingField field item_id) ;;
        ret false
      else
        v <- py_subscript item field ;;
        if negb (isinstance_str_int v) then
          item_id <- py_get item (u "id") ;;
          log "WARN" "validate" (LWrongType field item_id) ;;
          ret false
        else validate_fields rest item
  end.

Definition validate_item (item : pyval) : M bool :=
  validate_fields required item.

(** The dict display is evaluated entry by entry, in order. *)
Definition transform_item (item : pyval) : M normalized :=
  v_id <- py_subscript item (u "id") ;;
  timestamp <- now_iso ;;
  v_title <- py_subscript item (u "title") ;;
  v_body <- py_subscript item (u "body") ;;
  v_user <- py_subscript item (u "userId") ;;
  processed_at <- now_iso ;;
  ret {| rec_id := py_str v_id;
         rec_timestamp := timestamp;
         rec_title := slice_to 500 (strip (py_str v_title));
         rec_body := slice_to 2000 (strip (py_str v_body));
         rec_user_id := py_str v_user;
         rec_source_url := API_URL E;
         rec_processed_at := processed_at |}.

(** One iteration of the loop of [process_data] on the pair
    [(valid, invalid)]. *)
Definition process_step (st : list normalized * Z) (item : pyval)
  : M (list normalized * Z) :=
  let (valid, invalid) := st in
  ok <- validate_item item ;;
  if ok then
    r <- transform_item item ;;
    ret (valid ++ [r], invalid)
  else ret (valid, invalid + 1).

Fixpoint process_loop (items : list pyval) (st : list normalized * Z)
  : M (list normalized * Z) :=
  match items with
  | [] => ret st
  | item :: rest => st' <- process_step st item ;; process_loop rest st'
  end.

Definition process_data (raw : pyval) : M (list normalized) :=
  items <- py_iter raw ;;
  st <- process_loop items ([], 0) ;;
  log "INFO" "process"
      (LProcessed (Z.of_nat (length (fst st))) (snd st)) ;;
  ret (fst st).

(** *** 4. Store in DynamoDB *)

(** The batch writer is the store's own client: it takes the items and
    either writes them all or raises. *)
Definition store_data (items : list normalized) : M Z :=
  emit (EBatchWrite (TABLE_NAME E) items) ;;
  match batch_writer E items with
  | Some exc => raise exc
  | None =>
      let stored := Z.of_nat (length items) in
      log "INFO" "store" (LStored stored) ;;
      ret stored
  end.

(** *** 5. CloudWatch custom metrics *)

Definition put_metric (name : string) (value : metric_value)
    (unit_name : string) : M unit :=
  n <- next_metric_call ;;
  emit (EMetric name value unit_name) ;;
  match put_metric_data E n with
  | None => ret tt
  | Some exc => log "WARN" "metrics" (LMetricFailed name exc)
  end.

(** *** Main handler *)

(** Steps 1 to 3 of the [try] block: health check, fetch, process. *)
Definition fetch_and_process : M (list normalized) :=
  healthy <- health_check ;;
  (if negb healthy then
     raise (PyError RuntimeError
              (u "DynamoDB table '" ++ TABLE_NAME E ++ u "' is not available"))
   else ret tt) ;;
  raw_data <- fetch_data (API_URL E) ;;
  process_data raw_data.

(** The whole [try] block. *)
Definition pipeline (start : N) : M response :=
  processed <- fetch_and_process ;;
  match processed with
  | [] => raise (PyError ValueError (u "No valid records after validation"))
  | _ :: _ =>
      stored_count <- store_data processed ;;
      t_end <- time_now ;;
      put_metric "ProcessedRecords" (MCount stored_count) "Count" ;;
      put_metric "ExecutionDurationMs" (MDuration start t_end) "Milliseconds" ;;
      put_metric "Errors" (MCount 0) "Count" ;;
      log "INFO" "done" (LDone stored_count start t_end) ;;
      ret (Resp200 stored_count start t_end)
  end.

(** The [except Exception as exc] block. *)
Definition on_exception (start : N) (exc : exc) : M response :=
  t_end <- time_now ;;
  log "ERROR" "fatal" (LFatal (str_exc exc) start t_end) ;;
  put_metric "Errors" (MCount 1) "Count" ;;
  ret (Resp500 (str_exc exc)).

Definition lambda_handler : M response :=
  start <- time_now ;;
  log "INFO" "start" LInvoked ;;
  try_catch (pipeline start) (on_exception start).

(** The world in which the [try] block of a run started in [w] begins. *)
Definition at_try (w : world) : world :=
  snd ((start <- time_now ;; log "INFO" "start" LInvoked) w).

End Handler.

(** ** Views of the code used to state its properties *)

(** *** Record processing *)

(** What [validate_item] decides on a dict, one field at a time. *)
Definition field_ok (kvs : list (pystr * pyval)) (field : pystr) : bool :=
  match dict_lookup field kvs with
  | Some v => isinstance_str_int v
  | None => false
  end.

(** What [validate_item] decides on an item that is a dict. *)
Definition accepts (item : pyval) : bool :=
  match item with
  | PDict kvs => forallb (field_ok kvs) required
  | _ => false
  end.

(** [r] is what [transform_item] makes of [item] at some moment. *)
Definition transformed_from (E : env) (r : normalized) (item : pyval) : Prop :=
  exists w w', transform_item E item w = (Ok r, w').

(** Every element of the batch is a dict. *)
Definition all_dicts (items : list pyval) : Prop :=
  Forall (fun v => is_dict v = true) items.

(** The number of elements [validate_item] does not accept. *)
Definition rejected_count (items : list pyval) : Z :=
  Z.of_nat (length (filter (fun v => negb (accepts v)) items)).





(** *** Fetching *)

(** The sleeps of a trace, most recent first. *)
Fixpoint sleeps (t : list event) : list Z :=
  match t with
  | [] => []
  | ESleep seconds :: t' => seconds :: sleeps t'
  | _ :: t' => sleeps t'
  end.

(** The rate-limit signal: status 429, read off the response or carried
    by an [HTTPError]. *)
Definition rate_limited (o : http_outcome) : bool :=
  match o with
  | Response status _ _ => status =? 429
  | RaisesHTTPError code _ _ => code =? 429
  | RaisesOther _ _ => false
  end.

(** The advisory duration a signal carries, if any. *)
Definition advisory (o : http_outcome) : option Z :=
  match o with
  | Response _ (HeaderInt d) _ | RaisesHTTPError _ _ (HeaderInt d) => Some d
  | _ => None
  end.


(** The outcome is an exception, not a response. *)
Definition raised (o : http_outcome) : bool :=
  match o with
  | Response _ _ _ => false
  | _ => true
  end.


(** How one attempt ends: with the data, with a wait that leaves
    [last_error] alone, or with an exception that becomes [last_error]. *)
Inductive verdict :=
| Fetched (data : pyval)
| Waited
| Failed (e : exc).

(** The end of an attempt, read off the outcome of its request. *)
Definition verdict_of (E : env) (o : http_outcome) : verdict :=
  match o with
  | RaisesHTTPError code reason headers => Failed (HTTPError code reason headers)
  | RaisesOther cls text => Failed (PyError cls text)
  | Response status retry_after payload =>
      if status =? 429 then
        match retry_after with
        | HeaderAbsent => Waited
        | HeaderInt d =>
            if d <? 0 then Failed (PyError ValueError (fault_text E NegativeSleep))
            else if sleep_max <? d
            then Failed (PyError OverflowError (fault_text E SleepTooLong))
            else Waited
        | HeaderJunk raw =>
            Failed (PyError ValueError (fault_text E (BadIntLiteral raw)))
        end
      else
        match payload with
        | BodyError cls text => Failed (PyError cls text)
        | BodyJson (PList _ as v) | BodyJson (PDict _ as v)
        | BodyJson (PStr _ as v) => Fetched v
        | BodyJson v => Failed (PyError TypeError (fault_text E (NoLen v)))
        end
  end.

Definition is_fetched (v : verdict) : bool :=
  match v with Fetched _ => true | _ => false end.

(** [last_error] after attempts with the given outcomes. *)
Fixpoint last_error_after (E : env) (outcomes : list http_outcome)
    (last_error : option exc) : option exc :=
  match outcomes with
  | [] => last_error
  | o :: rest =>
      last_error_after E rest
        (match verdict_of E o with Failed e => Some e | _ => last_error end)
  end.

(** The outcomes of the [n] requests that follow request number [k]. *)
Definition outcomes_from (E : env) (k n : nat) : list http_outcome :=
  map (urlopen E) (seq k n).

(** No attempt with one of these outcomes fetches the data. *)
Definition all_unsuccessful (E : env) (outcomes : list http_outcome) : bool :=
  forallb (fun o => negb (is_fetched (verdict_of E o))) outcomes.

(** *** Store calls *)

(** The batches handed to the store in a trace, most recent first. *)
Fixpoint store_calls (t : list event) : list (list normalized) :=
  match t with
  | [] => []
  | EBatchWrite _ items :: t' => items :: store_calls t'
  | _ :: t' => store_calls t'
  end.

(** A computation that never calls the store. *)
Definition no_store {A} (m : M A) : Prop :=
  forall w, store_calls (trace (snd (m w))) = store_calls (trace w).

(** ** Statements of the specification that are tested against the code *)


(** The statement that every accepted record has a non-empty id. *)
Definition ids_never_empty (E : env) : Prop :=
  forall items w valid w',
    process_data E (PList items) w = (Ok valid, w') ->
    forall r, In r valid -> rec_id r <> [].



(** The statement that a rate-limited attempt never becomes the last
    error reported when the attempts are exhausted. *)
Definition rate_limits_unreported (E : env) : Prop :=
  forall url w,
    all_unsuccessful E
      (outcomes_from E (requests w) (Z.to_nat (MAX_RETRIES E))) = true ->
    fst (fetch_data E url w)
    = Raise (PyError RuntimeError
               (fetch_failed_msg E
                  (last_error_after E
                     (filter (fun o => negb (rate_limited o))
                        (outcomes_from E (requests w)
                           (Z.to_nat (MAX_RETRIES E))))
                     None))).

(** ** Sample environments and inputs *)

(** A fresh run: nothing read, nothing done. *)
Definition w0 : world :=
  {| clock_reads := 0; requests := 0; metric_calls := 0; trace := [] |}.

(** A run against a healthy table, with the given [urlopen] outcomes. *)
Definition sample_env (outcomes : nat -> http_outcome) : env :=
  {| TABLE_NAME := u "iac-data-store";
     API_URL := u "https://jsonplaceholder.typicode.com/posts";
     MAX_RETRIES := 3;
     now := fun n => u "2026-01-01T00:00:0" ++ str_int (Z.of_nat n);
     time_time := N.of_nat;
     urlopen := outcomes;
     describe_table := Ok (u "ACTIVE");
     batch_writer := fun _ => None;
     put_metric_data := fun _ => None;
     str_other := fun _ => u "None";
     fault_text := fun _ => u "fault" |}.

(** Every request fails at the transport level. *)
Definition offline : env := sample_env (fun _ => RaisesOther URLError (u "unreachable")).

(** Every request raises [HTTPError] 429. *)
Definition throttled (headers : header) : env :=
  sample_env (fun _ => RaisesHTTPError 429 (u "Too Many Requests") headers).

(** Every connection is refused, with the given [MAX_RETRIES]. *)
Definition refused (max_retries : Z) : env :=
  {| TABLE_NAME := u "iac-data-store";
     API_URL := u "https://jsonplaceholder.typicode.com/posts";
     MAX_RETRIES := max_retries;
     now := fun n => u "2026-01-01T00:00:0" ++ str_int (Z.of_nat n);
     time_time := N.of_nat;
     urlopen := fun _ => RaisesOther URLError (u "Connection refused");
     describe_table := Ok (u "ACTIVE");
     batch_writer := fun _ => None;
     put_metric_data := fun _ => None;
     str_other := fun _ => u "None";
     fault_text := fun _ => u "fault" |}.

(** Three attempts: a 500, then a 429 with Retry-After: 1, then a
    timeout. *)
Definition flaky : env :=
  sample_env (fun n =>
    match n with
    | O => RaisesHTTPError 500 (u "Internal Server Error") HeaderAbsent
    | S O => RaisesHTTPError 429 (u "Too Many Requests") (HeaderInt 1)
    | _ => RaisesOther URLError (u "timed out")
    end).

(** A record with the four required fields. *)
Definition post (id title body userId : pyval) : pyval :=
  PDict [(u "id", id); (u "title", title); (u "body", body); (u "userId", userId)].

Definition good_post : pyval :=
  post (PInt 1) (PStr (u "  sunt aut facere ")) (PStr (u "quia et suscipit")) (PInt 7).

Definition post_without_user : pyval :=
  PDict [(u "id", PInt 2); (u "title", PStr (u "qui est esse")); (u "body", PStr (u "est rerum"))].

Definition post_with_empty_id : pyval :=
  post (PStr []) (PStr (u "ea molestias")) (PStr (u "et iusto sed")) (PInt 1).

(** A title of 600 letters between blanks, a body of 2500. *)
Definition long_post : pyval :=
  post (PInt 3) (PStr (u "  " ++ repeat 97%N 600 ++ u " "))
       (PStr (10%N :: repeat 98%N 2500 ++ [9%N; 32%N])) (PInt 1).

(** A run whose only fetched record lacks [userId]. *)
Definition one_bad_record : env :=
  sample_env (fun _ => Response 200 HeaderAbsent (BodyJson (PList [post_without_user]))).

(** ** Further views of a run *)

(** The metrics of a trace, most recent first. *)
Definition metric_events (t : list event) : list event :=
  filter (fun e => match e with EMetric _ _ _ => true | _ => false end) t.

(** The metrics a world has seen sent, most recent first. *)
Definition metrics_of (w : world) : list event := metric_events (trace w).

(** The metrics a run reports with a given response, most recent
    first. *)
Definition reported (resp : response) : list event :=
  match resp with
  | Resp500 _ => [EMetric "Errors" (MCount 1) "Count"]
  | Resp200 stored t_start t_end =>
      [EMetric "Errors" (MCount 0) "Count";
       EMetric "ExecutionDurationMs" (MDuration t_start t_end) "Milliseconds";
       EMetric "ProcessedRecords" (MCount stored) "Count"]
  end.

(** A computation that leaves an observation [f] of the world as it
    was. *)
Definition keeps {A X : Type} (f : world -> X) (m : M A) : Prop :=
  forall w, f (snd (m w)) = f w.

(** The values [len] accepts among those [json.loads] yields. *)
Definition is_container (v : pyval) : bool :=
  match v with
  | PList _ | PDict _ | PStr _ => true
  | _ => false
  end.

(** [2 ** attempt] for [n] attempts in a row, the first one numbered
    [attempt]. *)
Fixpoint backoff (attempt : Z) (n : nat) : list Z :=
  match n with
  | O => []
  | S n' => 2 ^ attempt :: backoff (attempt + 1) n'
  end.

(** The value [item.get("id")] gives on a dict. *)
Definition item_id (kvs : list (pystr * pyval)) : pyval :=
  match dict_lookup (u "id") kvs with Some v => v | None => PNone end.


(** The first required field, in the order [transform_item] reads them,
    that a dict lacks. *)
Definition first_missing_field (kvs : list (pystr * pyval)) : option pystr :=
  find (fun field => match dict_lookup field kvs with
                     | Some _ => false
                     | None => true
                     end) required.

(** The string does not begin, respectively end, with a code point
    [str.strip] removes. *)
Definition starts_clean (s : pystr) : Prop :=
  match s with c :: _ => is_space c = false | [] => True end.

Definition ends_clean (s : pystr) : Prop := starts_clean (rev s).

(** The same run with another CloudWatch client. *)
Definition with_put_metric_data (E : env) (client : nat -> option exc) : env :=
  {| TABLE_NAME := TABLE_NAME E;
     API_URL := API_URL E;
     MAX_RETRIES := MAX_RETRIES E;
     now := now E;
     time_time := time_time E;
     urlopen := urlopen E;
     describe_table := describe_table E;
     batch_writer := batch_writer E;
     put_metric_data := client;
     str_other := str_other E;
     fault_text := fault_text E |}.

(** ** Further sample environments *)

(** The table exists but is still being created. *)
Definition creating_table : env :=
  {| TABLE_NAME := u "iac-data-store";
     API_URL := u "https://jsonplaceholder.typicode.com/posts";
     MAX_RETRIES := 3;
     now := fun n => u "2026-01-01T00:00:0" ++ str_int (Z.of_nat n);
     time_time := N.of_nat;
     urlopen := fun _ => Response 200 HeaderAbsent (BodyJson (PList [good_post]));
     describe_table := Ok (u "CREATING");
     batch_writer := fun _ => None;
     put_metric_data := fun _ => None;
     str_other := fun _ => u "None";
     fault_text := fun _ => u "fault" |}.

(** No attempt is allowed. *)
Definition no_retries : env :=
  {| TABLE_NAME := u "iac-data-store";
     API_URL := u "https://jsonplaceholder.typicode.com/posts";
     MAX_RETRIES := 0;
     now := fun n => u "2026-01-01T00:00:0" ++ str_int (Z.of_nat n);
     time_time := N.of_nat;
     urlopen := fun _ => Response 200 HeaderAbsent (BodyJson (PList [good_post]));
     describe_table := Ok (u "ACTIVE");
     batch_writer := fun _ => None;
     put_metric_data := fun _ => None;
     str_other := fun _ => u "None";
     fault_text := fun _ => u "fault" |}.

(** The first request returns a good record and one without [userId]. *)
Definition two_posts : env :=
  sample_env (fun _ => Response 200 HeaderAbsent
                         (BodyJson (PList [good_post; post_without_user]))).

(** As [two_posts], with a store that refuses the batch. *)
Definition store_down : env :=
  {| TABLE_NAME := u "iac-data-store";
     API_URL := u "https://jsonplaceholder.typicode.com/posts";
     MAX_RETRIES := 3;
     now := fun n => u "2026-01-01T00:00:0" ++ str_int (Z.of_nat n);
     time_time := N.of_nat;
     urlopen := fun _ => Response 200 HeaderAbsent
                           (BodyJson (PList [good_post; post_without_user]));
     describe_table := Ok (u "ACTIVE");
     batch_writer := fun _ => Some (PyError OtherError (u "ProvisionedThroughputExceededException"));
     put_metric_data := fun _ => None;
     str_other := fun _ => u "None";
     fault_text := fun _ => u "fault" |}.

(** Two failures, then the data. *)
Definition recovers : env :=
  sample_env (fun n =>
    match n with
    | O => RaisesOther URLError (u "timed out")
    | S O => RaisesHTTPError 429 (u "Too Many Requests") (HeaderInt 1)
    | _ => Response 200 HeaderAbsent (BodyJson (PList [good_post]))
    end).

(** ** Facts about strings *)

Lemma uint_digits_nil (d : Decimal.uint) : uint_digits d = [] -> d = Decimal.Nil.
Proof. destruct d; simpl; intros H; try discriminate; reflexivity. Qed.

Lemma str_int_non_empty (z : Z) : str_int z <> [].
Proof.
  unfold str_int. destruct z as [|p|p]; simpl.
  - discriminate.
  - intros H. apply uint_digits_nil in H.
    exact (DecimalPos.Unsigned.to_uint_nonnil p H).
  - discriminate.
Qed.

Lemma str_bool_non_empty (b : bool) : str_bool b <> [].
Proof. destruct b; discriminate. Qed.

Lemma str_bool_trimmed (b : bool) (n : nat) :
  (5 <= n)%nat -> slice_to n (strip (str_bool b)) = str_bool b.
Proof.
  intros Hn. unfold slice_to.
  assert (Hs : strip (str_bool b) = str_bool b) by (destruct b; reflexivity).
  rewrite Hs. apply firstn_all2. destruct b; simpl; lia.
Qed.

Lemma slice_to_prefix (n : nat) (s : pystr) :
  exists rest, s = slice_to n s ++ rest.
Proof. exists (skipn n s). unfold slice_to. symmetry. apply firstn_skipn. Qed.

Lemma slice_to_length (n : nat) (s : pystr) :
  (n < length s)%nat -> length (slice_to n s) = n.
Proof. intros H. unfold slice_to. rewrite length_firstn. lia. Qed.

(** ** Running validation and transformation *)

Section Processing.

Variable E : env.

Lemma validate_fields_dict (fields : list pystr) (kvs : list (pystr * pyval)) :
  forall w, exists w',
    validate_fields E fields (PDict kvs) w
    = (Ok (forallb (field_ok kvs) fields), w').
Proof.
  induction fields as [|field rest IH]; intros w;
    cbn [validate_fields forallb].
  - eexists; reflexivity.
  - unfold bind, py_contains, py_subscript, ret, field_ok at 1.
    destruct (dict_lookup field kvs) as [v|] eqn:Hf; cbn [negb andb].
    + destruct (isinstance_str_int v); cbn [negb andb].
      * apply IH.
      * eexists; reflexivity.
    + eexists; reflexivity.
Qed.

Lemma validate_item_dict (kvs : list (pystr * pyval)) (w : world) :
  exists w', validate_item E (PDict kvs) w = (Ok (accepts (PDict kvs)), w').
Proof. apply validate_fields_dict. Qed.

(** On anything but a dict the membership test, [item.get] or the
    subscript raises. *)
Lemma validate_item_non_dict (item : pyval) (w : world) :
  is_dict item = false ->
  exists e, validate_item E item w = (Raise e, w).
Proof.
  intros Hd. destruct item; try discriminate Hd;
    unfold validate_item; simpl; unfold bind at 1; simpl;
    try (eexists; reflexivity).
  - destruct (contains_str (u "id") s); simpl; eexists; reflexivity.
  - match goal with |- context [existsb ?f ?l] => destruct (existsb f l) end;
      simpl; eexists; reflexivity.
Qed.

Lemma validate_item_true_dict (item : pyval) (w w' : world) :
  validate_item E item w = (Ok true, w') ->
  exists kvs, item = PDict kvs /\ accepts item = true.
Proof.
  intros H. destruct (is_dict item) eqn:Hd.
  - destruct item; try discriminate Hd. exists kvs. split; [reflexivity|].
    destruct (validate_item_dict kvs w) as [w1 H1].
    rewrite H1 in H. now inversion H.
  - destruct (validate_item_non_dict item w Hd) as [e He].
    rewrite He in H. discriminate.
Qed.

Lemma accepts_lookup (kvs : list (pystr * pyval)) (field : pystr) :
  accepts (PDict kvs) = true -> In field required ->
  exists v, dict_lookup field kvs = Some v /\ isinstance_str_int v = true.
Proof.
  unfold accepts. intros H Hin. rewrite forallb_forall in H.
  specialize (H field Hin). unfold field_ok in H.
  destruct (dict_lookup field kvs) as [v|]; [|discriminate].
  exists v. split; [reflexivity|assumption].
Qed.

Lemma transform_item_dict (kvs : list (pystr * pyval))
    (v_id v_title v_body v_user : pyval) (w : world) :
  dict_lookup (u "id") kvs = Some v_id ->
  dict_lookup (u "title") kvs = Some v_title ->
  dict_lookup (u "body") kvs = Some v_body ->
  dict_lookup (u "userId") kvs = Some v_user ->
  transform_item E (PDict kvs) w
  = (Ok {| rec_id := py_str E v_id;
           rec_timestamp := now E (clock_reads w);
           rec_title := slice_to 500 (strip (py_str E v_title));
           rec_body := slice_to 2000 (strip (py_str E v_body));
           rec_user_id := py_str E v_user;
           rec_source_url := API_URL E;
           rec_processed_at := now E (S (clock_reads w)) |},
     {| clock_reads := S (S (clock_reads w)); requests := requests w;
        metric_calls := metric_calls w; trace := trace w |}).
Proof.
  intros Hi Ht Hb Hu. unfold transform_item, bind, py_subscript.
  rewrite Hi. simpl. rewrite Ht, Hb, Hu. reflexivity.
Qed.

(** ** The processing loop *)

Lemma process_step_accepts (valid : list normalized) (invalid : Z)
    (kvs : list (pystr * pyval)) (w : world) :
  accepts (PDict kvs) = true ->
  exists r w',
    process_step E (valid, invalid) (PDict kvs) w = (Ok (valid ++ [r], invalid), w')
    /\ transformed_from E r (PDict kvs).
Proof.
  intros Ha.
  destruct (validate_item_dict kvs w) as [w1 Hv]. rewrite Ha in Hv.
  destruct (accepts_lookup kvs (u "id") Ha) as [vi [Hi _]]; [simpl; tauto|].
  destruct (accepts_lookup kvs (u "title") Ha) as [vt [Ht _]]; [simpl; tauto|].
  destruct (accepts_lookup kvs (u "body") Ha) as [vb [Hb _]]; [simpl; tauto|].
  destruct (accepts_lookup kvs (u "userId") Ha) as [vu [Hu _]]; [simpl; tauto|].
  pose proof (transform_item_dict kvs vi vt vb vu w1 Hi Ht Hb Hu) as Htr.
  eexists. eexists. split.
  - unfold process_step, bind. rewrite Hv, Htr. reflexivity.
  - exists w1. eexists. exact Htr.
Qed.

Lemma process_step_rejects (valid : list normalized) (invalid : Z)
    (kvs : list (pystr * pyval)) (w : world) :
  accepts (PDict kvs) = false ->
  exists w',
    process_step E (valid, invalid) (PDict kvs) w = (Ok (valid, invalid + 1), w').
Proof.
  intros Ha.
  destruct (validate_item_dict kvs w) as [w1 Hv]. rewrite Ha in Hv.
  exists w1. unfold process_step, bind. rewrite Hv. reflexivity.
Qed.

Lemma process_step_non_dict (st : list normalized * Z) (item : pyval) (w : world) :
  is_dict item = false ->
  exists e, process_step E st item w = (Raise e, w).
Proof.
  intros Hd. destruct (validate_item_non_dict item w Hd) as [e He].
  exists e. destruct st as [valid invalid].
  unfold process_step, bind. rewrite He. reflexivity.
Qed.

(** On dicts the loop neither raises nor reorders: it appends one
    transformed record per accepted item and counts the others. *)
Lemma process_loop_dicts (items : list pyval) :
  all_dicts items ->
  forall (st : list normalized * Z) (w : world),
  exists new w',
    process_loop E items st w
    = (Ok (fst st ++ new, snd st + rejected_count items), w')
    /\ Forall2 (transformed_from E) new (filter accepts items).
Proof.
  unfold rejected_count.
  induction 1 as [|item rest Hd _ IH]; intros [valid invalid] w;
    cbn [process_loop fst snd filter length].
  - exists [], w. rewrite app_nil_r, Z.add_0_r. split; [reflexivity|constructor].
  - destruct item; try discriminate Hd.
    destruct (accepts (PDict kvs)) eqn:Ha; cbn [negb].
    + destruct (process_step_accepts valid invalid kvs w Ha) as [r [w1 [Hs Hr]]].
      destruct (IH (valid ++ [r], invalid) w1) as [new [w2 [Hl Hn]]].
      exists (r :: new), w2. split.
      * unfold bind. rewrite Hs, Hl. cbn [fst snd].
        rewrite <- app_assoc. reflexivity.
      * constructor; assumption.
    + destruct (process_step_rejects valid invalid kvs w Ha) as [w1 Hs].
      destruct (IH (valid, invalid + 1) w1) as [new [w2 [Hl Hn]]].
      exists new, w2. split; [|assumption].
      unfold bind. rewrite Hs, Hl. cbn [fst snd length].
      rewrite Nat2Z.inj_succ. do 2 f_equal. f_equal. lia.
Qed.

(** The loop completes only on a list of dicts. *)
Lemma process_loop_ok_dicts (items : list pyval) :
  forall st w st' w',
    process_loop E items st w = (Ok st', w') -> all_dicts items.
Proof.
  induction items as [|item rest IH]; intros st w st' w' H.
  - constructor.
  - cbn [process_loop] in H. unfold bind in H.
    destruct (is_dict item) eqn:Hd.
    + destruct (process_step E st item w) as [[st1|e] w1] eqn:Hs;
        [|discriminate].
      constructor; [assumption|]. exact (IH _ _ _ _ H).
    + destruct (process_step_non_dict st item w Hd) as [e He].
      rewrite He in H. discriminate.
Qed.


Lemma process_data_list_inv (items : list pyval) (w w' : world)
    (valid : list normalized) :
  process_data E (PList items) w = (Ok valid, w') ->
  exists invalid w1, process_loop E items ([], 0) w = (Ok (valid, invalid), w1).
Proof.
  unfold process_data, py_iter, bind. unfold ret at 1.
  destruct (process_loop E items ([], 0) w) as [[[v i]|e] w1]; [|discriminate].
  cbn. intros H. inversion H. subst. eexists. eexists. reflexivity.
Qed.

Lemma Forall2_In_l {A B} (R : A -> B -> Prop) (l1 : list A) (l2 : list B) (x : A) :
  Forall2 R l1 l2 -> In x l1 -> exists y, In y l2 /\ R x y.
Proof.
  induction 1 as [|a b l1 l2 Hab _ IH]; intros Hin; [contradiction|].
  destruct Hin as [->|Hin].
  - exists b. split; [left; reflexivity|assumption].
  - destruct (IH Hin) as [y [Hy Hr]]. exists y. split; [right|]; assumption.
Qed.

End Processing.

(** ** Record processing: the claims *)





(** C4, counterexample: a record whose id is the empty string passes
    validation and is stored under the empty id. *)
Lemma empty_id_is_accepted : ~ ids_never_empty offline.
Proof.
  intros H.
  eapply (H [post_with_empty_id] w0).
  - vm_compute. reflexivity.
  - left. reflexivity.
  - reflexivity.
Qed.

(** C4, as amended: every record [process_data] returns is the
    transform of an input record that [validate_item] accepts, its id is
    [str] of that record's id, and the id is non-empty unless the input
    id is the empty string. *)
Theorem accepted_records_come_from_validated (E : env) (items : list pyval)
    (w w' : world) (valid : list normalized) :
  process_data E (PList items) w = (Ok valid, w') ->
  forall r, In r valid ->
  exists kvs v,
    In (PDict kvs) items
    /\ (forall w1, exists w2, validate_item E (PDict kvs) w1 = (Ok true, w2))
    /\ transformed_from E r (PDict kvs)
    /\ dict_lookup (u "id") kvs = Some v
    /\ rec_id r = py_str E v
    /\ (v <> PStr [] -> rec_id r <> []).
Proof.
  intros Hp r Hr.
  destruct (process_data_list_inv E items w w' valid Hp) as [invalid [w1 Hl]].
  pose proof (process_loop_ok_dicts E items _ _ _ _ Hl) as Hd.
  destruct (process_loop_dicts E items Hd ([], 0) w) as [new [w2 [Hl' Hn]]].
  rewrite Hl in Hl'. cbn [fst app] in Hl'. inversion Hl'. subst new.
  destruct (Forall2_In_l _ _ _ r Hn Hr) as [item [Hin Ht]].
  apply filter_In in Hin. destruct Hin as [Hin Ha].
  destruct item; try discriminate Ha.
  destruct (accepts_lookup kvs (u "id") Ha) as [vi [Hi Hti]]; [simpl; tauto|].
  destruct (accepts_lookup kvs (u "title") Ha) as [vt [Htt _]]; [simpl; tauto|].
  destruct (accepts_lookup kvs (u "body") Ha) as [vb [Hb _]]; [simpl; tauto|].
  destruct (accepts_lookup kvs (u "userId") Ha) as [vu [Hu _]]; [simpl; tauto|].
  assert (Hid : rec_id r = py_str E vi).
  { destruct Ht as [wa [wb Hab]].
    rewrite (transform_item_dict E kvs vi vt vb vu wa Hi Htt Hb Hu) in Hab.
    inversion Hab. reflexivity. }
  exists kvs, vi. repeat split; try assumption.
  - intros w3. destruct (validate_item_dict E kvs w3) as [w4 Hv].
    rewrite Ha in Hv. exists w4. exact Hv.
  - intros Hne. rewrite Hid.
    destruct vi; try discriminate Hti; cbn [py_str].
    + apply str_bool_non_empty.
    + apply str_int_non_empty.
    + intros ->. apply Hne. reflexivity.
Qed.

Lemma accepted_records_come_from_validated_witness :
  exists kvs v,
    In (PDict kvs) [post_without_user; good_post]
    /\ (forall w1, exists w2, validate_item offline (PDict kvs) w1 = (Ok true, w2))
    /\ transformed_from offline
         {| rec_id := u "1"; rec_timestamp := u "2026-01-01T00:00:01";
            rec_title := u "sunt aut facere"; rec_body := u "quia et suscipit";
            rec_user_id := u "7"; rec_source_url := API_URL offline;
            rec_processed_at := u "2026-01-01T00:00:02" |}
         (PDict kvs)
    /\ dict_lookup (u "id") kvs = Some v
    /\ rec_id {| rec_id := u "1"; rec_timestamp := u "2026-01-01T00:00:01";
                 rec_title := u "sunt aut facere"; rec_body := u "quia et suscipit";
                 rec_user_id := u "7"; rec_source_url := API_URL offline;
                 rec_processed_at := u "2026-01-01T00:00:02" |}
       = py_str offline v
    /\ (v <> PStr [] -> u "1" <> []).
Proof.
  eapply (accepted_records_come_from_validated offline
            [post_without_user; good_post] w0).
  - vm_compute. reflexivity.
  - left. reflexivity.
Defined.




(** C6: for a record holding the four required fields, [transform_item]
    returns a record; when the trimmed title is longer than 500 code
    points the title of the result has length exactly 500 and is a prefix
    of the trimmed title, and likewise for the body with 2000. *)
Theorem title_and_body_truncated (E : env) (kvs : list (pystr * pyval))
    (v_id v_title v_body v_user : pyval) (w : world) :
  dict_lookup (u "id") kvs = Some v_id ->
  dict_lookup (u "title") kvs = Some v_title ->
  dict_lookup (u "body") kvs = Some v_body ->
  dict_lookup (u "userId") kvs = Some v_user ->
  exists r w',
    transform_item E (PDict kvs) w = (Ok r, w')
    /\ ((500 < length (strip (py_str E v_title)))%nat ->
        length (rec_title r) = 500%nat
        /\ exists rest, strip (py_str E v_title) = rec_title r ++ rest)
    /\ ((2000 < length (strip (py_str E v_body)))%nat ->
        length (rec_body r) = 2000%nat
        /\ exists rest, strip (py_str E v_body) = rec_body r ++ rest).
Proof.
  intros Hi Ht Hb Hu.
  eexists. eexists. split.
  - apply (transform_item_dict E kvs v_id v_title v_body v_user w Hi Ht Hb Hu).
  - cbn [rec_title rec_body]. split; intros Hlen; split.
    + apply slice_to_length. exact Hlen.
    + apply slice_to_prefix.
    + apply slice_to_length. exact Hlen.
    + apply slice_to_prefix.
Qed.

Lemma title_and_body_truncated_witness :
  exists r w',
    transform_item offline long_post w0 = (Ok r, w')
    /\ (length (rec_title r) = 500%nat
        /\ exists rest, repeat 97%N 600 = rec_title r ++ rest)
    /\ (length (rec_body r) = 2000%nat
        /\ exists rest, repeat 98%N 2500 = rec_body r ++ rest).
Proof.
  destruct (title_and_body_truncated offline
              [(u "id", PInt 3);
               (u "title", PStr (u "  " ++ repeat 97%N 600 ++ u " "));
               (u "body", PStr (10%N :: repeat 98%N 2500 ++ [9%N; 32%N]));
               (u "userId", PInt 1)]
              (PInt 3) (PStr (u "  " ++ repeat 97%N 600 ++ u " "))
              (PStr (10%N :: repeat 98%N 2500 ++ [9%N; 32%N])) (PInt 1) w0
              eq_refl eq_refl eq_refl eq_refl)
    as [r [w' [Hr [Ht Hb]]]].
  exists r, w'. split; [exact Hr|]. split.
  - assert (Hs : strip (u "  " ++ repeat 97%N 600 ++ u " ") = repeat 97%N 600)
      by (vm_compute; reflexivity).
    cbn [py_str] in Ht. rewrite Hs in Ht. apply Ht.
    rewrite repeat_length. lia.
  - assert (Hs : strip (10%N :: repeat 98%N 2500 ++ [9%N; 32%N]) = repeat 98%N 2500)
      by (vm_compute; reflexivity).
    cbn [py_str] in Hb. rewrite Hs in Hb. apply Hb.
    rewrite repeat_length. lia.
Defined.

(** C9: a record [validate_item] accepts is transformed, at any two
    moments, into two records with the same [id], [title], [body] and
    [user_id] (and [source_url]); only [timestamp] and [processed_at],
    read from the clock, can differ. *)
Theorem transform_item_repeatable (E : env) (item : pyval) (wv wv' : world) :
  validate_item E item wv = (Ok true, wv') ->
  forall w1 w2, exists r1 r2 w1' w2',
    transform_item E item w1 = (Ok r1, w1')
    /\ transform_item E item w2 = (Ok r2, w2')
    /\ rec_id r1 = rec_id r2
    /\ rec_title r1 = rec_title r2
    /\ rec_body r1 = rec_body r2
    /\ rec_user_id r1 = rec_user_id r2
    /\ rec_source_url r1 = rec_source_url r2.
Proof.
  intros Hv w1 w2.
  destruct (validate_item_true_dict E item wv wv' Hv) as [kvs [-> Ha]].
  destruct (accepts_lookup kvs (u "id") Ha) as [vi [Hi _]]; [simpl; tauto|].
  destruct (accepts_lookup kvs (u "title") Ha) as [vt [Ht _]]; [simpl; tauto|].
  destruct (accepts_lookup kvs (u "body") Ha) as [vb [Hb _]]; [simpl; tauto|].
  destruct (accepts_lookup kvs (u "userId") Ha) as [vu [Hu _]]; [simpl; tauto|].
  do 4 eexists. split; [|split].
  - apply (transform_item_dict E kvs vi vt vb vu w1 Hi Ht Hb Hu).
  - apply (transform_item_dict E kvs vi vt vb vu w2 Hi Ht Hb Hu).
  - repeat split.
Qed.

Lemma transform_item_repeatable_witness :
  exists r1 r2 w1' w2',
    transform_item offline good_post w0 = (Ok r1, w1')
    /\ transform_item offline good_post
         {| clock_reads := 7; requests := 1; metric_calls := 0; trace := [] |}
       = (Ok r2, w2')
    /\ rec_id r1 = rec_id r2
    /\ rec_title r1 = rec_title r2
    /\ rec_body r1 = rec_body r2
    /\ rec_user_id r1 = rec_user_id r2
    /\ rec_source_url r1 = rec_source_url r2.
Proof.
  eapply (transform_item_repeatable offline good_post w0).
  vm_compute. reflexivity.
Defined.

(** C10: a record whose four required fields are all booleans passes
    [validate_item], and [transform_item] turns each of them into the
    text [True] or [False]. *)
Theorem booleans_validate_and_stringify (E : env) (kvs : list (pystr * pyval))
    (b_id b_title b_body b_user : bool) (w : world) :
  dict_lookup (u "id") kvs = Some (PBool b_id) ->
  dict_lookup (u "title") kvs = Some (PBool b_title) ->
  dict_lookup (u "body") kvs = Some (PBool b_body) ->
  dict_lookup (u "userId") kvs = Some (PBool b_user) ->
  exists w1 r w2,
    validate_item E (PDict kvs) w = (Ok true, w1)
    /\ transform_item E (PDict kvs) w1 = (Ok r, w2)
    /\ rec_id r = (if b_id then u "True" else u "False")
    /\ rec_title r = (if b_title then u "True" else u "False")
    /\ rec_body r = (if b_body then u "True" else u "False")
    /\ rec_user_id r = (if b_user then u "True" else u "False").
Proof.
  intros Hi Ht Hb Hu.
  assert (Ha : accepts (PDict kvs) = true).
  { unfold accepts, required. cbn [forallb]. unfold field_ok.
    rewrite Hi, Ht, Hb, Hu. reflexivity. }
  destruct (validate_item_dict E kvs w) as [w1 Hv]. rewrite Ha in Hv.
  exists w1. eexists. eexists. split; [exact Hv|]. split.
  - apply (transform_item_dict E kvs _ _ _ _ w1 Hi Ht Hb Hu).
  - cbn [rec_id rec_title rec_body rec_user_id py_str].
    rewrite !str_bool_trimmed by lia. repeat split.
Qed.

Lemma booleans_validate_and_stringify_witness :
  exists w1 r w2,
    validate_item offline (post (PBool true) (PBool false) (PBool true) (PBool false)) w0
    = (Ok true, w1)
    /\ transform_item offline
         (post (PBool true) (PBool false) (PBool true) (PBool false)) w1
       = (Ok r, w2)
    /\ rec_id r = u "True"
    /\ rec_title r = u "False"
    /\ rec_body r = u "True"
    /\ rec_user_id r = u "False".
Proof.
  apply (booleans_validate_and_stringify offline
           [(u "id", PBool true); (u "title", PBool false);
            (u "body", PBool true); (u "userId", PBool false)]
           true false true false w0); reflexivity.
Defined.

(** ** Fetching: what one attempt does *)

Lemma pow2_not_negative (a : Z) : (2 ^ a <? 0) = false.
Proof. apply Z.ltb_ge. apply Z.pow_nonneg. lia. Qed.

(** When the longest backoff of a run fits [time.sleep], all of them do. *)
Lemma backoff_fits (max_retries : Z) :
  2 ^ max_retries <= sleep_max ->
  forall i, 1 <= i < 1 + Z.of_nat (Z.to_nat max_retries) -> 2 ^ i <= sleep_max.
Proof.
  intros Hmax i Hi. apply Z.le_trans with (2 ^ max_retries); [|exact Hmax].
  apply Z.pow_le_mono_r; lia.
Qed.

Section Fetching.

Variable E : env.
Variable url : pystr.

Ltac run_attempt :=
  unfold fetch_attempt, try_request, log, now_iso, retry_after_of, sleep,
    py_len, interp_error;
  unfold bind, try_catch, tick, emit, next_request, ret, raise;
  cbn [clock_reads requests metric_calls trace].

Ltac backoff_sleep H :=
  cbn [clock_reads requests metric_calls trace];
  rewrite pow2_not_negative, H; eexists; repeat split.

Lemma fetch_attempt_raised (attempt : Z) (last_error : option exc) (w : world)
    (e : exc) :
  verdict_of E (urlopen E (requests w)) = Failed e ->
  2 ^ attempt <= sleep_max ->
  exists w',
    fetch_attempt E url attempt last_error w = (Ok (None, Some e), w')
    /\ requests w' = S (requests w)
    /\ sleeps (trace w') = 2 ^ attempt :: sleeps (trace w).
Proof.
  intros Hv Hfit. apply Z.ltb_ge in Hfit. run_attempt.
  destruct (urlopen E (requests w)) as [status h payload|code reason h|cls text];
    cbn [verdict_of] in Hv.
  - destruct (status =? 429).
    + destruct h as [|d|raw]; try discriminate Hv.
      * destruct (d <? 0) eqn:Hd.
        -- inversion Hv; subst e. backoff_sleep Hfit.
        -- cbn [clock_reads requests metric_calls trace].
           destruct (sleep_max <? d) eqn:Hd'; [|discriminate Hv].
           inversion Hv; subst e. backoff_sleep Hfit.
      * inversion Hv; subst e. backoff_sleep Hfit.
    + destruct payload as [v|cls text].
      * destruct v; inversion Hv; subst e; backoff_sleep Hfit.
      * inversion Hv; subst e. backoff_sleep Hfit.
  - inversion Hv; subst e. destruct (code =? 429); backoff_sleep Hfit.
  - inversion Hv; subst e. backoff_sleep Hfit.
Qed.

(** Past [sleep_max] the sleep of the [except] block raises, and nothing
    catches it. *)
Lemma fetch_attempt_overflows (attempt : Z) (last_error : option exc)
    (w : world) (e : exc) :
  verdict_of E (urlopen E (requests w)) = Failed e ->
  sleep_max < 2 ^ attempt ->
  exists w',
    fetch_attempt E url attempt last_error w
    = (Raise (PyError OverflowError (fault_text E SleepTooLong)), w')
    /\ requests w' = S (requests w)
    /\ sleeps (trace w') = sleeps (trace w).
Proof.
  intros Hv Hfit. apply Z.ltb_lt in Hfit. run_attempt.
  destruct (urlopen E (requests w)) as [status h payload|code reason h|cls text];
    cbn [verdict_of] in Hv.
  - destruct (status =? 429).
    + destruct h as [|d|raw]; try discriminate Hv.
      * destruct (d <? 0) eqn:Hd.
        -- inversion Hv; subst e. backoff_sleep Hfit.
        -- cbn [clock_reads requests metric_calls trace].
           destruct (sleep_max <? d) eqn:Hd'; [|discriminate Hv].
           inversion Hv; subst e. backoff_sleep Hfit.
      * inversion Hv; subst e. backoff_sleep Hfit.
    + destruct payload as [v|cls text].
      * destruct v; inversion Hv; subst e; backoff_sleep Hfit.
      * inversion Hv; subst e. backoff_sleep Hfit.
  - inversion Hv; subst e. destruct (code =? 429); backoff_sleep Hfit.
  - inversion Hv; subst e. backoff_sleep Hfit.
Qed.

Lemma fetch_attempt_waited (attempt : Z) (last_error : option exc) (w : world) :
  verdict_of E (urlopen E (requests w)) = Waited ->
  exists w',
    fetch_attempt E url attempt last_error w = (Ok (None, last_error), w')
    /\ requests w' = S (requests w).
Proof.
  intros Hv. run_attempt.
  destruct (urlopen E (requests w)) as [status h payload|code reason h|cls text];
    cbn [verdict_of] in Hv; try discriminate Hv.
  destruct (status =? 429).
  - destruct h as [|d|raw]; try discriminate Hv.
    + eexists. split; reflexivity.
    + cbn [clock_reads requests metric_calls trace].
      destruct (d <? 0); [discriminate Hv|].
      destruct (sleep_max <? d); [discriminate Hv|].
      eexists. split; reflexivity.
  - destruct payload as [v|cls text]; [destruct v|]; discriminate Hv.
Qed.

Lemma fetch_attempt_fetched (attempt : Z) (last_error : option exc) (w : world)
    (data : pyval) :
  verdict_of E (urlopen E (requests w)) = Fetched data ->
  exists w',
    fetch_attempt E url attempt last_error w = (Ok (Some data, last_error), w')
    /\ requests w' = S (requests w)
    /\ sleeps (trace w') = sleeps (trace w).
Proof.
  intros Hv. run_attempt.
  destruct (urlopen E (requests w)) as [status h payload|code reason h|cls text];
    cbn [verdict_of] in Hv; try discriminate Hv.
  destruct (status =? 429).
  - destruct h as [|d|raw]; try discriminate Hv.
    destruct (d <? 0); [discriminate Hv|].
    destruct (sleep_max <? d); discriminate Hv.
  - destruct payload as [v|cls text]; [|discriminate Hv].
    destruct v; inversion Hv; subst data; eexists; repeat split.
Qed.

(** A 429 read off the response status waits what Retry-After says, and
    5 seconds when the header is absent. *)
Lemma fetch_attempt_in_band_429 (attempt : Z) (last_error : option exc)
    (w : world) (h : header) (payload : body) (d : Z) :
  urlopen E (requests w) = Response 429 h payload ->
  (h = HeaderAbsent /\ d = 5) \/ (h = HeaderInt d /\ 0 <= d <= sleep_max) ->
  exists w',
    fetch_attempt E url attempt last_error w = (Ok (None, last_error), w')
    /\ sleeps (trace w') = d :: sleeps (trace w).
Proof.
  intros Ho Hh. run_attempt. rewrite Ho. cbn [Z.eqb Pos.eqb].
  destruct Hh as [[-> ->] | [-> [Hd Hd']]].
  - eexists. split; reflexivity.
  - cbn [clock_reads requests metric_calls trace].
    apply Z.ltb_ge in Hd, Hd'. rewrite Hd, Hd'. eexists. split; reflexivity.
Qed.

Lemma fetch_loop_exhausted (n : nat) :
  forall (attempt : Z) (last_error : option exc) (w : world),
    (forall i, attempt <= i < attempt + Z.of_nat n -> 2 ^ i <= sleep_max) ->
    all_unsuccessful E (outcomes_from E (requests w) n) = true ->
    exists w',
      fetch_loop E url n attempt last_error w
      = (Raise (PyError RuntimeError
                  (fetch_failed_msg E
                     (last_error_after E (outcomes_from E (requests w) n)
                        last_error))), w')
      /\ requests w' = (requests w + n)%nat.
Proof.
  unfold all_unsuccessful, outcomes_from.
  induction n as [|n IH]; intros attempt last_error w Hfit Hall.
  - exists w. split; [reflexivity|lia].
  - cbn [seq map forallb last_error_after] in *.
    apply andb_true_iff in Hall. destruct Hall as [Hhead Hrest].
    cbn [fetch_loop]. unfold bind.
    assert (Hfit' : forall i, attempt + 1 <= i < attempt + 1 + Z.of_nat n ->
                      2 ^ i <= sleep_max) by (intros i Hi; apply Hfit; lia).
    destruct (verdict_of E (urlopen E (requests w))) as [data| |e] eqn:Hv;
      [discriminate Hhead| |].
    + destruct (fetch_attempt_waited attempt last_error w Hv) as [w1 [Ha Hr]].
      rewrite Ha. rewrite <- Hr in Hrest.
      destruct (IH (attempt + 1) last_error w1 Hfit' Hrest) as [w' [Hl Hreq]].
      exists w'. rewrite Hl, Hr. split; [reflexivity|lia].
    + destruct (fetch_attempt_raised attempt last_error w e Hv
                  ltac:(apply Hfit; lia)) as [w1 [Ha [Hr _]]].
      rewrite Ha. rewrite <- Hr in Hrest.
      destruct (IH (attempt + 1) (Some e) w1 Hfit' Hrest) as [w' [Hl Hreq]].
      exists w'. rewrite Hl, Hr. split; [reflexivity|lia].
Qed.

End Fetching.

(** ** Fetching: the claims *)

(** C1: at attempt 1 the request raises [HTTPError] 429 with
    Retry-After: 7, a rate-limit signal carrying the advisory duration 7;
    [fetch_data] then sleeps 2 ** 1 = 2 seconds, not 7.  The branch for a
    429 read off the response status does wait the advised duration
    ([fetch_attempt_in_band_429]). *)
Theorem retry_after_ignored_on_http_error :
  rate_limited (urlopen (throttled (HeaderInt 7)) 0) = true
  /\ advisory (urlopen (throttled (HeaderInt 7)) 0) = Some 7
  /\ sleeps (trace (snd (fetch_attempt (throttled (HeaderInt 7))
                           (API_URL (throttled (HeaderInt 7))) 1 None w0)))
     = [2].
Proof. vm_compute. repeat split. Qed.




(** C8, counterexample: when all three attempts raise [HTTPError] 429 the
    failure reports that error, "Fetch failed after 3 attempts: HTTP
    Error 429: Too Many Requests", not "... attempts: None". *)
Lemma http_429_is_reported : ~ rate_limits_unreported (throttled HeaderAbsent).
Proof.
  intros H. specialize (H [] w0 eq_refl).
  vm_compute in H. discriminate H.
Qed.

(** C8, as amended: when none of the [MAX_RETRIES] attempts fetches the
    data and every backoff is a length [time.sleep] accepts
    ([2 ^ MAX_RETRIES <= sleep_max], that is [MAX_RETRIES <= 33]),
    [fetch_data] makes exactly [MAX_RETRIES] requests and raises
    [RuntimeError] with the message "Fetch failed after <MAX_RETRIES>
    attempts: <last_error>", where [last_error] is the exception of the
    last attempt that ended in one ([HTTPError] of any status, 429
    included) and [None] if no attempt did; a 429 read off the response
    status, once waited for, leaves [last_error] as it was. *)
Theorem fetch_exhausted (E : env) (url : pystr) (w : world) :
  0 <= MAX_RETRIES E ->
  2 ^ MAX_RETRIES E <= sleep_max ->
  all_unsuccessful E
    (outcomes_from E (requests w) (Z.to_nat (MAX_RETRIES E))) = true ->
  exists w',
    fetch_data E url w
    = (Raise (PyError RuntimeError
                (u "Fetch failed after " ++ str_int (MAX_RETRIES E)
                   ++ u " attempts: "
                   ++ str_opt_exc
                        (last_error_after E
                           (outcomes_from E (requests w)
                              (Z.to_nat (MAX_RETRIES E)))
                           None))), w')
    /\ Z.of_nat (requests w') = Z.of_nat (requests w) + MAX_RETRIES E.
Proof.
  intros Hmax Hfit Hall.
  destruct (fetch_loop_exhausted E url _ 1 None w
              (backoff_fits (MAX_RETRIES E) Hfit) Hall) as [w' [Hl Hr]].
  exists w'. split; [exact Hl|]. rewrite Hr. lia.
Qed.

Lemma fetch_exhausted_witness :
  exists w',
    fetch_data flaky [] w0
    = (Raise (PyError RuntimeError
                (u "Fetch failed after 3 attempts: timed out")),
       w')
    /\ Z.of_nat (requests w') = 3.
Proof.
  apply (fetch_exhausted flaky [] w0);
    [cbn; lia | vm_compute; discriminate | reflexivity].
Defined.

(** ** The handler: what reaches the store *)

Lemma no_store_ret {A} (a : A) : no_store (ret a).
Proof. intros w. reflexivity. Qed.

Lemma no_store_raise {A} (e : exc) : no_store (@raise A e).
Proof. intros w. reflexivity. Qed.

Lemma no_store_bind {A B} (m : M A) (k : A -> M B) :
  no_store m -> (forall a, no_store (k a)) -> no_store (bind m k).
Proof.
  intros Hm Hk w. unfold bind. specialize (Hm w).
  destruct (m w) as [[a|e] w1]; cbn [snd] in *.
  - rewrite <- Hm. apply Hk.
  - exact Hm.
Qed.

Lemma no_store_try_catch {A} (m : M A) (h : exc -> M A) :
  no_store m -> (forall e, no_store (h e)) -> no_store (try_catch m h).
Proof.
  intros Hm Hh w. unfold try_catch. specialize (Hm w).
  destruct (m w) as [[a|e] w1]; cbn [snd] in *.
  - exact Hm.
  - rewrite <- Hm. apply Hh.
Qed.

Lemma no_store_tick : no_store tick.
Proof. intros w. reflexivity. Qed.

Lemma no_store_next_request : no_store next_request.
Proof. intros w. reflexivity. Qed.

Lemma no_store_next_metric_call : no_store next_metric_call.
Proof. intros w. reflexivity. Qed.

Lemma no_store_emit (e : event) :
  match e with EBatchWrite _ _ => False | _ => True end -> no_store (emit e).
Proof. intros He w. destruct e; try contradiction; reflexivity. Qed.

Create HintDb no_store.
#[export] Hint Resolve no_store_ret no_store_raise no_store_tick
  no_store_next_request no_store_next_metric_call : no_store.

Ltac no_store_step :=
  first
    [ solve [auto with no_store]
    | apply no_store_bind; [|intro]
    | apply no_store_try_catch; [|intro]
    | apply no_store_emit; exact I
    | match goal with
      | |- no_store (match ?x with _ => _ end) => destruct x
      | |- no_store (let (_, _) := ?x in _) => destruct x
      end ].

Ltac no_store_auto := repeat no_store_step.

Section Handling.

Variable E : env.

Lemma no_store_log (level step : string) (msg : log_msg) :
  no_store (log E level step msg).
Proof. unfold log, now_iso. no_store_auto. Qed.

Lemma no_store_time_now : no_store (time_now E).
Proof. unfold time_now. no_store_auto. Qed.

Lemma no_store_sleep (seconds : Z) : no_store (sleep E seconds).
Proof. unfold sleep, interp_error. no_store_auto. Qed.

Hint Resolve no_store_log no_store_time_now no_store_sleep : no_store.

Lemma no_store_health_check : no_store (health_check E).
Proof. unfold health_check. no_store_auto. Qed.

Lemma no_store_fetch_attempt (url : pystr) (attempt : Z) (last_error : option exc) :
  no_store (fetch_attempt E url attempt last_error).
Proof.
  unfold fetch_attempt, try_request, retry_after_of, py_len, interp_error.
  no_store_auto.
Qed.

Hint Resolve no_store_health_check no_store_fetch_attempt : no_store.

Lemma no_store_fetch_data (url : pystr) : no_store (fetch_data E url).
Proof.
  unfold fetch_data. generalize 1 (@None exc).
  induction (Z.to_nat (MAX_RETRIES E)) as [|n IH];
    intros attempt last_error; cbn [fetch_loop].
  - no_store_auto.
  - no_store_auto.
Qed.

Lemma no_store_validate_item (item : pyval) : no_store (validate_item E item).
Proof.
  unfold validate_item.
  induction required as [|field rest IH]; cbn [validate_fields].
  - no_store_auto.
  - unfold py_contains, py_get, py_subscript, interp_error.
    no_store_auto.
Qed.

Lemma no_store_transform_item (item : pyval) : no_store (transform_item E item).
Proof.
  unfold transform_item, py_subscript, now_iso, interp_error. no_store_auto.
Qed.

Hint Resolve no_store_fetch_data no_store_validate_item
  no_store_transform_item : no_store.

Lemma no_store_process_data (raw : pyval) : no_store (process_data E raw).
Proof.
  unfold process_data, py_iter, interp_error.
  assert (Hloop : forall items st, no_store (process_loop E items st)).
  { induction items as [|item rest IH]; intros st; cbn [process_loop].
    - no_store_auto.
    - unfold process_step. no_store_auto. }
  no_store_auto.
Qed.

Hint Resolve no_store_process_data : no_store.

Lemma no_store_fetch_and_process : no_store (fetch_and_process E).
Proof. unfold fetch_and_process. no_store_auto. Qed.

Lemma no_store_put_metric (name : string) (value : metric_value) (unit_name : string) :
  no_store (put_metric E name value unit_name).
Proof. unfold put_metric. no_store_auto. Qed.

Hint Resolve no_store_put_metric : no_store.

Lemma on_exception_returns (start : N) (e : exc) (w : world) :
  exists w',
    on_exception E start e w = (Ok (Resp500 (str_exc e)), w')
    /\ store_calls (trace w') = store_calls (trace w).
Proof.
  assert (Hq : no_store (on_exception E start e))
    by (unfold on_exception; no_store_auto).
  specialize (Hq w).
  unfold on_exception, put_metric, log, now_iso, time_now in *.
  unfold bind, tick, emit, next_metric_call, ret in *.
  cbn [clock_reads requests metric_calls trace] in *.
  destruct (put_metric_data E (metric_calls w)) as [exc|];
    eexists; (split; [reflexivity|exact Hq]).
Qed.

End Handling.

(** C7: when health check, fetch and processing complete with no
    accepted record, [lambda_handler] returns the failure response whose
    error is "No valid records after validation", and the run hands
    nothing to the store. *)
Theorem no_valid_records_is_failure (E : env) (w w2 : world) :
  fetch_and_process E (at_try E w) = (Ok [], w2) ->
  exists w',
    lambda_handler E w
    = (Ok (Resp500 (u "No valid records after validation")), w')
    /\ store_calls (trace w') = store_calls (trace w).
Proof.
  intros Hp.
  pose proof (no_store_fetch_and_process E (at_try E w)) as Hq.
  rewrite Hp in Hq. cbn [snd] in Hq.
  destruct (on_exception_returns E (time_time E (clock_reads w))
              (PyError ValueError (u "No valid records after validation")) w2)
    as [w' [Hx Hs]].
  exists w'. split.
  - unfold lambda_handler, bind at 1 2, try_catch, pipeline, bind at 1.
    unfold at_try, bind in Hp. cbn in Hp |- *.
    rewrite Hp. exact Hx.
  - rewrite Hs, Hq. reflexivity.
Qed.

Lemma no_valid_records_is_failure_witness :
  exists w',
    lambda_handler one_bad_record w0
    = (Ok (Resp500 (u "No valid records after validation")), w')
    /\ store_calls (trace w') = store_calls (trace w0).
Proof.
  eapply (no_valid_records_is_failure one_bad_record w0).
  vm_compute. reflexivity.
Defined.

(** ** Record processing: further properties *)

Lemma str_eqb_eq (a b : pystr) : str_eqb a b = true <-> a = b.
Proof.
  revert b. induction a as [|x a IH]; intros [|y b]; simpl;
    try (split; [discriminate|discriminate]); try tauto.
  rewrite andb_true_iff, N.eqb_eq, IH. split.
  - intros [-> ->]. reflexivity.
  - intros H. inversion H. split; reflexivity.
Qed.

Lemma lstrip_head (s : pystr) :
  match lstrip s with c :: _ => is_space c = false | [] => True end.
Proof.
  induction s as [|c s IH]; simpl; [exact I|].
  destruct (is_space c) eqn:Hc; [exact IH|exact Hc].
Qed.

Lemma lstrip_suffix (s : pystr) : exists pre, s = pre ++ lstrip s.
Proof.
  induction s as [|c s [pre IH]]; simpl.
  - exists []. reflexivity.
  - destruct (is_space c).
    + exists (c :: pre). simpl. f_equal. exact IH.
    + exists []. reflexivity.
Qed.

Lemma rstrip_prefix (s : pystr) : exists suf, s = rstrip s ++ suf.
Proof.
  unfold rstrip. destruct (lstrip_suffix (rev s)) as [pre H].
  exists (rev pre). rewrite <- rev_app_distr, <- H, rev_involutive. reflexivity.
Qed.

Lemma strip_head (s : pystr) :
  match strip s with c :: _ => is_space c = false | [] => True end.
Proof.
  unfold strip. pose proof (lstrip_head s) as Hh.
  destruct (rstrip_prefix (lstrip s)) as [suf Hs].
  destruct (rstrip (lstrip s)) as [|c r]; [exact I|].
  rewrite Hs in Hh. exact Hh.
Qed.

Lemma strip_last (s : pystr) :
  match rev (strip s) with c :: _ => is_space c = false | [] => True end.
Proof.
  unfold strip, rstrip. rewrite rev_involutive. apply lstrip_head.
Qed.

Section ProcessingMore.

Variable E : env.

Lemma validate_fields_accepted (fields : list pystr) (kvs : list (pystr * pyval))
    (w : world) :
  forallb (field_ok kvs) fields = true ->
  validate_fields E fields (PDict kvs) w = (Ok true, w).
Proof.
  induction fields as [|field rest IH]; cbn [validate_fields forallb];
    [reflexivity|].
  intros H. apply andb_true_iff in H. destruct H as [Hf Hr].
  unfold field_ok in Hf. unfold bind, py_contains, py_subscript, ret.
  destruct (dict_lookup field kvs) as [v|]; [|discriminate Hf].
  cbn [negb]. rewrite Hf. cbn [negb]. exact (IH Hr).
Qed.


Lemma validate_item_str (s : pystr) (w : world) :
  validate_item E (PStr s) w
  = (Raise (if contains_str (u "id") s
            then PyError TypeError (fault_text E (BadSubscript (PStr s)))
            else PyError AttributeError (fault_text E (NoGetMethod (PStr s)))),
     w).
Proof.
  unfold validate_item. cbn [required validate_fields].
  unfold bind at 1, py_contains, ret.
  destruct (contains_str (u "id") s); reflexivity.
Qed.


(** Each record [process_data] returns, spelled out. *)
Lemma process_data_records (items : list pyval) (w w' : world)
    (valid : list normalized) :
  process_data E (PList items) w = (Ok valid, w') ->
  forall r, In r valid ->
  exists kvs v_id v_title v_body v_user n,
    In (PDict kvs) items
    /\ dict_lookup (u "id") kvs = Some v_id
    /\ dict_lookup (u "title") kvs = Some v_title
    /\ dict_lookup (u "body") kvs = Some v_body
    /\ dict_lookup (u "userId") kvs = Some v_user
    /\ r = {| rec_id := py_str E v_id;
              rec_timestamp := now E n;
              rec_title := slice_to 500 (strip (py_str E v_title));
              rec_body := slice_to 2000 (strip (py_str E v_body));
              rec_user_id := py_str E v_user;
              rec_source_url := API_URL E;
              rec_processed_at := now E (S n) |}.
Proof.
  intros Hp r Hr.
  destruct (process_data_list_inv E items w w' valid Hp) as [invalid [w1 Hl]].
  pose proof (process_loop_ok_dicts E items _ _ _ _ Hl) as Hd.
  destruct (process_loop_dicts E items Hd ([], 0) w) as [new [w2 [Hl' Hn]]].
  rewrite Hl in Hl'. cbn [fst app] in Hl'. inversion Hl'. subst new.
  destruct (Forall2_In_l _ _ _ r Hn Hr) as [item [Hin Ht]].
  apply filter_In in Hin. destruct Hin as [Hin Ha].
  destruct item; try discriminate Ha.
  destruct (accepts_lookup kvs (u "id") Ha) as [vi [Hi _]]; [simpl; tauto|].
  destruct (accepts_lookup kvs (u "title") Ha) as [vt [Htt _]]; [simpl; tauto|].
  destruct (accepts_lookup kvs (u "body") Ha) as [vb [Hb _]]; [simpl; tauto|].
  destruct (accepts_lookup kvs (u "userId") Ha) as [vu [Hu _]]; [simpl; tauto|].
  destruct Ht as [wa [wb Hab]].
  rewrite (transform_item_dict E kvs vi vt vb vu wa Hi Htt Hb Hu) in Hab.
  inversion Hab.
  exists kvs, vi, vt, vb, vu, (clock_reads wa). repeat split; assumption.
Qed.

End ProcessingMore.

(** X1: [validate_item] returns [True] on a dict exactly when each of
    [id], [title], [body] and [userId] is present with a [str] or [int]
    value, and in that case it logs nothing and reads no clock: the world
    is left as it was.  Other keys of the dict play no part. *)
Theorem validate_item_accepts_iff (E : env) (kvs : list (pystr * pyval))
    (w : world) :
  validate_item E (PDict kvs) w = (Ok true, w)
  <-> (forall field, In field required ->
       exists v, dict_lookup field kvs = Some v /\ isinstance_str_int v = true).
Proof.
  split.
  - intros H field Hin.
    destruct (validate_item_dict E kvs w) as [w1 H1]. rewrite H1 in H.
    assert (Ha : accepts (PDict kvs) = true) by (inversion H; reflexivity).
    exact (accepts_lookup kvs field Ha Hin).
  - intros H. apply validate_fields_accepted.
    apply forallb_forall. intros field Hin.
    destruct (H field Hin) as [v [Hv Hi]].
    unfold field_ok. rewrite Hv. exact Hi.
Qed.





(** X4: when the fetched JSON is an object with at least one key, or a
    non-empty string, [process_data] iterates over its keys, respectively
    its characters, and raises on the first one before anything is
    logged: [TypeError] when that key contains "id" (the subscript
    fails), [AttributeError] otherwise (there is no [get]). *)
Theorem process_data_rejects_object_and_string (E : env) (w : world) :
  (forall k v rest,
     process_data E (PDict ((k, v) :: rest)) w
     = (Raise (if contains_str (u "id") k
               then PyError TypeError (fault_text E (BadSubscript (PStr k)))
               else PyError AttributeError (fault_text E (NoGetMethod (PStr k)))),
        w))
  /\ (forall c s,
        process_data E (PStr (c :: s)) w
        = (Raise (PyError AttributeError (fault_text E (NoGetMethod (PStr [c])))),
           w)).
Proof.
  split.
  - intros k v rest. unfold process_data, py_iter, bind at 1. unfold ret at 1.
    cbn [map fst process_loop process_step]. unfold bind.
    rewrite validate_item_str. reflexivity.
  - intros c s. unfold process_data, py_iter, bind at 1. unfold ret at 1.
    cbn [map process_loop process_step]. unfold bind.
    rewrite validate_item_str.
    assert (Hc : contains_str (u "id") [c] = false).
    { cbn. rewrite andb_false_r. reflexivity. }
    rewrite Hc. reflexivity.
Qed.

(** X5: [transform_item] checks no type.  On a dict it raises [KeyError]
    for the first of id, title, body, userId that is missing, without any
    log line, and when the four keys are present it returns a record
    whatever their values are. *)
Theorem transform_item_needs_the_keys_only (E : env)
    (kvs : list (pystr * pyval)) (w : world) :
  match first_missing_field kvs with
  | Some field =>
      exists w',
        transform_item E (PDict kvs) w
        = (Raise (PyError KeyError (fault_text E (MissingKey field))), w')
        /\ trace w' = trace w
  | None => exists r w', transform_item E (PDict kvs) w = (Ok r, w')
  end.
Proof.
  unfold first_missing_field, required. cbn [find].
  unfold transform_item, bind, py_subscript, interp_error, raise, ret,
    now_iso, tick.
  destruct (dict_lookup (u "id") kvs); [|eexists; split; reflexivity].
  destruct (dict_lookup (u "title") kvs); [|eexists; split; reflexivity].
  destruct (dict_lookup (u "body") kvs); [|eexists; split; reflexivity].
  destruct (dict_lookup (u "userId") kvs); [|eexists; split; reflexivity].
  eexists. eexists. reflexivity.
Qed.

(** X6: every record [process_data] returns has a title of at most 500
    code points and a body of at most 2000, carries the configured
    [API_URL] as [source_url], and its [timestamp] and [processed_at] are
    two consecutive readings of the clock, [timestamp] first. *)
Theorem processed_records_are_bounded (E : env) (items : list pyval)
    (w w' : world) (valid : list normalized) :
  process_data E (PList items) w = (Ok valid, w') ->
  forall r, In r valid ->
    (length (rec_title r) <= 500)%nat
    /\ (length (rec_body r) <= 2000)%nat
    /\ rec_source_url r = API_URL E
    /\ exists n, rec_timestamp r = now E n /\ rec_processed_at r = now E (S n).
Proof.
  intros Hp r Hr.
  destruct (process_data_records E items w w' valid Hp r Hr)
    as [kvs [vi [vt [vb [vu [n [_ [_ [_ [_ [_ ->]]]]]]]]]]].
  cbn [rec_title rec_body rec_source_url rec_timestamp rec_processed_at].
  unfold slice_to. rewrite !length_firstn. repeat split; try lia.
  exists n. split; reflexivity.
Qed.

(** The record [process_data] makes of [long_post] in a fresh run. *)
Lemma processed_records_are_bounded_witness :
  (length (rec_title
             {| rec_id := u "3"; rec_timestamp := u "2026-01-01T00:00:00";
                rec_title := repeat 97%N 500; rec_body := repeat 98%N 2000;
                rec_user_id := u "1"; rec_source_url := API_URL offline;
                rec_processed_at := u "2026-01-01T00:00:01" |}) <= 500)%nat
  /\ (length (rec_body
                {| rec_id := u "3"; rec_timestamp := u "2026-01-01T00:00:00";
                   rec_title := repeat 97%N 500; rec_body := repeat 98%N 2000;
                   rec_user_id := u "1"; rec_source_url := API_URL offline;
                   rec_processed_at := u "2026-01-01T00:00:01" |}) <= 2000)%nat
  /\ rec_source_url
       {| rec_id := u "3"; rec_timestamp := u "2026-01-01T00:00:00";
          rec_title := repeat 97%N 500; rec_body := repeat 98%N 2000;
          rec_user_id := u "1"; rec_source_url := API_URL offline;
          rec_processed_at := u "2026-01-01T00:00:01" |}
     = API_URL offline
  /\ exists n,
       rec_timestamp
         {| rec_id := u "3"; rec_timestamp := u "2026-01-01T00:00:00";
            rec_title := repeat 97%N 500; rec_body := repeat 98%N 2000;
            rec_user_id := u "1"; rec_source_url := API_URL offline;
            rec_processed_at := u "2026-01-01T00:00:01" |}
       = now offline n
       /\ rec_processed_at
            {| rec_id := u "3"; rec_timestamp := u "2026-01-01T00:00:00";
               rec_title := repeat 97%N 500; rec_body := repeat 98%N 2000;
               rec_user_id := u "1"; rec_source_url := API_URL offline;
               rec_processed_at := u "2026-01-01T00:00:01" |}
          = now offline (S n).
Proof.
  eapply (processed_records_are_bounded offline [long_post] w0).
  - vm_compute. reflexivity.
  - left. reflexivity.
Defined.

(** X7: the title [transform_item] produces never begins with a
    whitespace code point; when the trimmed input has at most 500 code
    points the title is exactly the trimmed input and does not end with
    whitespace either (a truncated title can).  The same holds for the
    body with 2000. *)
Theorem title_and_body_are_trimmed (E : env) (kvs : list (pystr * pyval))
    (v_id v_title v_body v_user : pyval) (w : world) :
  dict_lookup (u "id") kvs = Some v_id ->
  dict_lookup (u "title") kvs = Some v_title ->
  dict_lookup (u "body") kvs = Some v_body ->
  dict_lookup (u "userId") kvs = Some v_user ->
  exists r w',
    transform_item E (PDict kvs) w = (Ok r, w')
    /\ starts_clean (rec_title r)
    /\ starts_clean (rec_body r)
    /\ ((length (strip (py_str E v_title)) <= 500)%nat ->
        rec_title r = strip (py_str E v_title) /\ ends_clean (rec_title r))
    /\ ((length (strip (py_str E v_body)) <= 2000)%nat ->
        rec_body r = strip (py_str E v_body) /\ ends_clean (rec_body r)).
Proof.
  intros Hi Ht Hb Hu.
  assert (Hclean : forall n s, starts_clean (slice_to (S n) (strip s))).
  { intros n s. pose proof (strip_head s) as Hh. unfold starts_clean, slice_to.
    destruct (strip s); [exact I|exact Hh]. }
  assert (Hshort : forall n s, (length (strip s) <= n)%nat ->
            slice_to n (strip s) = strip s /\ ends_clean (slice_to n (strip s))).
  { intros n s Hlen. unfold slice_to. rewrite (firstn_all2 _ Hlen).
    split; [reflexivity|]. apply strip_last. }
  eexists. eexists. split.
  - apply (transform_item_dict E kvs v_id v_title v_body v_user w Hi Ht Hb Hu).
  - cbn [rec_title rec_body].
    split; [apply Hclean|]. split; [apply Hclean|].
    split; intros Hlen; apply Hshort; exact Hlen.
Qed.

Lemma title_and_body_are_trimmed_witness :
  exists r w',
    transform_item offline good_post w0 = (Ok r, w')
    /\ starts_clean (rec_title r)
    /\ starts_clean (rec_body r)
    /\ (rec_title r = u "sunt aut facere" /\ ends_clean (rec_title r))
    /\ (rec_body r = u "quia et suscipit" /\ ends_clean (rec_body r)).
Proof.
  destruct (title_and_body_are_trimmed offline
              [(u "id", PInt 1); (u "title", PStr (u "  sunt aut facere "));
               (u "body", PStr (u "quia et suscipit")); (u "userId", PInt 7)]
              (PInt 1) (PStr (u "  sunt aut facere "))
              (PStr (u "quia et suscipit")) (PInt 7) w0
              eq_refl eq_refl eq_refl eq_refl)
    as [r [w' [Hr [H1 [H2 [H3 H4]]]]]].
  exists r, w'. repeat split; try assumption.
  - apply H3. vm_compute. lia.
  - apply H3. vm_compute. lia.
  - apply H4. vm_compute. lia.
  - apply H4. vm_compute. lia.
Defined.

(** ** Fetching: further properties *)

Lemma raised_failed (E : env) (o : http_outcome) :
  raised o = true -> exists e, verdict_of E o = Failed e.
Proof.
  destruct o; cbn; intros H; try discriminate H; eexists; reflexivity.
Qed.

Lemma fetched_is_container (E : env) (o : http_outcome) (data : pyval) :
  verdict_of E o = Fetched data -> is_container data = true.
Proof.
  destruct o as [status h payload| |]; cbn [verdict_of]; try discriminate.
  destruct (status =? 429).
  - destruct h as [|d|raw]; try discriminate.
    destruct (d <? 0); [discriminate|]. destruct (sleep_max <? d); discriminate.
  - destruct payload as [v|]; [|discriminate].
    destruct v; intros H; inversion H; reflexivity.
Qed.

Lemma backoff_sum (n : nat) :
  forall attempt, 0 <= attempt ->
    fold_right Z.add 0 (backoff attempt n)
    = 2 ^ (attempt + Z.of_nat n) - 2 ^ attempt.
Proof.
  induction n as [|n IH]; intros attempt Ha; cbn [backoff fold_right].
  - rewrite Z.add_0_r. lia.
  - rewrite IH by lia. rewrite Nat2Z.inj_succ.
    replace (attempt + 1 + Z.of_nat n) with (attempt + Z.succ (Z.of_nat n)) by lia.
    replace (attempt + 1) with (Z.succ attempt) by lia.
    rewrite (Z.pow_succ_r 2 attempt) by lia. lia.
Qed.

Section FetchingMore.

Variable E : env.
Variable url : pystr.

(** After [k] attempts that each end in an exception of the request and
    a backoff [time.sleep] accepts, the loop goes on with the rest. *)
Lemma fetch_loop_after_failures (k : nat) :
  forall (n : nat) (attempt : Z) (last_error : option exc) (w : world),
    (forall i, attempt <= i < attempt + Z.of_nat k -> 2 ^ i <= sleep_max) ->
    forallb raised (outcomes_from E (requests w) k) = true ->
    exists w' last,
      fetch_loop E url (k + n) attempt last_error w
      = fetch_loop E url n (attempt + Z.of_nat k) last w'
      /\ last = last_error_after E (outcomes_from E (requests w) k) last_error
      /\ sleeps (trace w') = rev (backoff attempt k) ++ sleeps (trace w)
      /\ requests w' = (requests w + k)%nat.
Proof.
  unfold outcomes_from.
  induction k as [|k IH]; intros n attempt last_error w Hfit Hall.
  - exists w, last_error. rewrite Z.add_0_r. repeat split. lia.
  - cbn [seq map forallb last_error_after backoff rev] in *.
    apply andb_true_iff in Hall. destruct Hall as [Hhead Hrest].
    destruct (raised_failed E _ Hhead) as [e Hv]. rewrite Hv.
    destruct (fetch_attempt_raised E url attempt last_error w e Hv
                ltac:(apply Hfit; lia)) as [w1 [Ha [Hr Hs]]].
    rewrite <- Hr in Hrest.
    destruct (IH n (attempt + 1) (Some e) w1
                ltac:(intros i Hi; apply Hfit; lia) Hrest)
      as [w' [last [Hl [Hlast [Hs' Hreq]]]]].
    rewrite Hr in Hlast.
    exists w', last. cbn [Nat.add fetch_loop]. unfold bind. rewrite Ha, Hl.
    repeat split.
    + f_equal. lia.
    + exact Hlast.
    + rewrite Hs', Hs, <- app_assoc. reflexivity.
    + lia.
Qed.

Lemma fetch_loop_succeeds (k : nat) :
  forall (n : nat) (attempt : Z) (last_error : option exc) (w : world)
         (data : pyval),
    (k < n)%nat ->
    (forall i, attempt <= i < attempt + Z.of_nat k -> 2 ^ i <= sleep_max) ->
    all_unsuccessful E (outcomes_from E (requests w) k) = true ->
    verdict_of E (urlopen E (requests w + k)) = Fetched data ->
    exists w',
      fetch_loop E url n attempt last_error w = (Ok data, w')
      /\ requests w' = (requests w + S k)%nat.
Proof.
  unfold all_unsuccessful, outcomes_from.
  induction k as [|k IH]; intros n attempt last_error w data Hk Hfit Hall Hv;
    (destruct n as [|n]; [lia|]); cbn [fetch_loop]; unfold bind.
  - rewrite Nat.add_0_r in Hv.
    destruct (fetch_attempt_fetched E url attempt last_error w data Hv)
      as [w1 [Ha [Hr _]]].
    exists w1. rewrite Ha. split; [reflexivity|lia].
  - cbn [seq map forallb] in Hall.
    apply andb_true_iff in Hall. destruct Hall as [Hhead Hrest].
    replace (requests w + S k)%nat with (S (requests w) + k)%nat in Hv by lia.
    assert (Hfit' : forall i, attempt + 1 <= i < attempt + 1 + Z.of_nat k ->
                      2 ^ i <= sleep_max) by (intros i Hi; apply Hfit; lia).
    destruct (verdict_of E (urlopen E (requests w))) as [d| |e] eqn:Hv0;
      [discriminate Hhead| |].
    + destruct (fetch_attempt_waited E url attempt last_error w Hv0)
        as [w1 [Ha Hr]].
      rewrite Ha. rewrite <- Hr in Hrest, Hv.
      destruct (IH n (attempt + 1) last_error w1 data ltac:(lia) Hfit' Hrest Hv)
        as [w' [Hl Hreq]].
      exists w'. split; [exact Hl|lia].
    + destruct (fetch_attempt_raised E url attempt last_error w e Hv0
                  ltac:(apply Hfit; lia)) as [w1 [Ha [Hr _]]].
      rewrite Ha. rewrite <- Hr in Hrest, Hv.
      destruct (IH n (attempt + 1) (Some e) w1 data ltac:(lia) Hfit' Hrest Hv)
        as [w' [Hl Hreq]].
      exists w'. split; [exact Hl|lia].
Qed.

Ltac continue_with IH attempt last w1 :=
  let w' := fresh "w'" in
  let Hle := fresh "Hle" in
  let Hend := fresh "Hend" in
  let data := fresh "data" in
  let last0 := fresh "last0" in
  let Hl := fresh "Hl" in
  let Hc := fresh "Hc" in
  let Hreq := fresh "Hreq" in
  let i := fresh "i" in
  let Hi := fresh "Hi" in
  let Hover := fresh "Hover" in
  destruct (IH (attempt + 1) last w1) as [w' [Hle Hend]];
  exists w'; split; [lia|];
  destruct Hend as [[data [Hl Hc]] | [[last0 [Hl Hreq]] | [Hl [i [Hi Hover]]]]];
  [ left; exists data; split; assumption
  | right; left; exists last0; split; [exact Hl|lia]
  | right; right; split; [exact Hl|]; exists i; split; [lia|exact Hover] ].

Lemma fetch_loop_ends (n : nat) :
  forall (attempt : Z) (last_error : option exc) (w : world),
  exists w',
    (requests w' <= requests w + n)%nat
    /\ ((exists data,
           fetch_loop E url n attempt last_error w = (Ok data, w')
           /\ is_container data = true)
        \/ (exists last,
              fetch_loop E url n attempt last_error w
              = (Raise (PyError RuntimeError (fetch_failed_msg E last)), w')
              /\ requests w' = (requests w + n)%nat)
        \/ (fetch_loop E url n attempt last_error w
            = (Raise (PyError OverflowError (fault_text E SleepTooLong)), w')
            /\ exists i, attempt <= i < attempt + Z.of_nat n
                         /\ sleep_max < 2 ^ i)).
Proof.
  induction n as [|n IH]; intros attempt last_error w; cbn [fetch_loop].
  - exists w. split; [lia|]. right. left. exists last_error.
    split; [reflexivity|lia].
  - unfold bind.
    destruct (verdict_of E (urlopen E (requests w))) as [d| |e] eqn:Hv.
    + destruct (fetch_attempt_fetched E url attempt last_error w d Hv)
        as [w1 [Ha [Hr _]]].
      exists w1. rewrite Ha. split; [lia|]. left. exists d.
      split; [reflexivity|]. exact (fetched_is_container E _ d Hv).
    + destruct (fetch_attempt_waited E url attempt last_error w Hv)
        as [w1 [Ha Hr]].
      rewrite Ha. continue_with IH attempt last_error w1.
    + destruct (Z_le_gt_dec (2 ^ attempt) sleep_max) as [Hfit | Hover].
      * destruct (fetch_attempt_raised E url attempt last_error w e Hv Hfit)
          as [w1 [Ha [Hr _]]].
        rewrite Ha. continue_with IH attempt (Some e) w1.
      * destruct (fetch_attempt_overflows E url attempt last_error w e Hv
                    ltac:(lia)) as [w1 [Ha [Hr _]]].
        exists w1. rewrite Ha. split; [lia|]. right. right.
        split; [reflexivity|]. exists attempt. split; lia.
Qed.

End FetchingMore.

(** X8: [fetch_data] stops at the first attempt that fetches the data:
    when the first [k] requests fail or are rate limited, the backoffs
    after them are lengths [time.sleep] accepts ([2 ^ k <= sleep_max],
    that is [k <= 33]) and request [k + 1], within [MAX_RETRIES], answers
    with a JSON list, object or string, that value is returned after
    exactly [k + 1] requests and the errors met before are dropped. *)
Theorem fetch_data_stops_at_first_success (E : env) (url : pystr) (w : world)
    (k : nat) (data : pyval) :
  (k < Z.to_nat (MAX_RETRIES E))%nat ->
  2 ^ Z.of_nat k <= sleep_max ->
  all_unsuccessful E (outcomes_from E (requests w) k) = true ->
  verdict_of E (urlopen E (requests w + k)) = Fetched data ->
  exists w',
    fetch_data E url w = (Ok data, w')
    /\ requests w' = (requests w + S k)%nat.
Proof.
  intros Hk Hfit Hall Hv.
  apply (fetch_loop_succeeds E url k _ 1 None w data Hk); try assumption.
  intros i Hi. apply Z.le_trans with (2 ^ Z.of_nat k); [|exact Hfit].
  apply Z.pow_le_mono_r; lia.
Qed.

Lemma fetch_data_stops_at_first_success_witness :
  exists w',
    fetch_data recovers [] w0 = (Ok (PList [good_post]), w')
    /\ requests w' = 3%nat.
Proof.
  apply (fetch_data_stops_at_first_success recovers [] w0 2 (PList [good_post]));
    [cbn; lia | vm_compute; discriminate | reflexivity | reflexivity].
Defined.

(** X9: when every attempt ends in an exception of the request and
    [2 ** MAX_RETRIES] is a length [time.sleep] accepts
    ([MAX_RETRIES <= 33]), [fetch_data] sleeps [2 ** 1], [2 ** 2], ...,
    [2 ** MAX_RETRIES] seconds, one sleep after each attempt and so also
    after the last one, before it raises [RuntimeError]; the waits add up
    to [2 ** (MAX_RETRIES + 1) - 2] seconds. *)
Theorem fetch_data_backs_off_after_every_failure (E : env) (url : pystr)
    (w : world) :
  2 ^ MAX_RETRIES E <= sleep_max ->
  forallb raised (outcomes_from E (requests w) (Z.to_nat (MAX_RETRIES E))) = true ->
  exists w' last,
    fetch_data E url w
    = (Raise (PyError RuntimeError (fetch_failed_msg E last)), w')
    /\ sleeps (trace w')
       = rev (backoff 1 (Z.to_nat (MAX_RETRIES E))) ++ sleeps (trace w)
    /\ fold_right Z.add 0 (backoff 1 (Z.to_nat (MAX_RETRIES E)))
       = 2 ^ (Z.of_nat (Z.to_nat (MAX_RETRIES E)) + 1) - 2.
Proof.
  intros Hfit Hall.
  destruct (fetch_loop_after_failures E url _ 0 1 None w
              (backoff_fits (MAX_RETRIES E) Hfit) Hall)
    as [w' [last [Hl [_ [Hs _]]]]].
  exists w', last. unfold fetch_data.
  rewrite Nat.add_0_r in Hl. rewrite Hl. split; [reflexivity|].
  split; [exact Hs|].
  rewrite backoff_sum by lia. rewrite Z.add_comm. reflexivity.
Qed.

Lemma fetch_data_backs_off_after_every_failure_witness :
  exists w' last,
    fetch_data offline [] w0
    = (Raise (PyError RuntimeError (fetch_failed_msg offline last)), w')
    /\ sleeps (trace w') = [8; 4; 2]
    /\ 2 + (4 + (8 + 0)) = 14.
Proof.
  apply (fetch_data_backs_off_after_every_failure offline [] w0).
  - vm_compute. discriminate.
  - reflexivity.
Defined.

(** X10: with [MAX_RETRIES] zero or negative the range of attempts is
    empty: [fetch_data] makes no request, logs nothing, and raises at
    once "Fetch failed after <MAX_RETRIES> attempts: None". *)
Theorem fetch_data_without_attempts (E : env) (url : pystr) (w : world) :
  MAX_RETRIES E <= 0 ->
  fetch_data E url w
  = (Raise (PyError RuntimeError
              (u "Fetch failed after " ++ str_int (MAX_RETRIES E)
                 ++ u " attempts: None")), w).
Proof.
  intros H. unfold fetch_data.
  replace (Z.to_nat (MAX_RETRIES E)) with O by lia. reflexivity.
Qed.

Lemma fetch_data_without_attempts_witness :
  fetch_data no_retries [] w0
  = (Raise (PyError RuntimeError (u "Fetch failed after 0 attempts: None")), w0).
Proof.
  apply (fetch_data_without_attempts no_retries [] w0). cbn. lia.
Defined.

(** X11: whatever the requests answer, [fetch_data] makes at most
    [MAX_RETRIES] requests and ends in one of three ways: it returns a
    value that has a length (a JSON list, object or string, not
    necessarily a list); or, after exactly [MAX_RETRIES] requests, it
    raises [RuntimeError] "Fetch failed after ... attempts: ..."; or the
    backoff of some attempt [i <= MAX_RETRIES] is longer than
    [time.sleep] accepts ([sleep_max < 2 ^ i], so [i >= 34]) and the
    [OverflowError] of that sleep leaves it.  No other exception does. *)
Theorem fetch_data_ends (E : env) (url : pystr) (w : world) :
  exists w',
    (requests w' <= requests w + Z.to_nat (MAX_RETRIES E))%nat
    /\ ((exists data,
           fetch_data E url w = (Ok data, w') /\ is_container data = true)
        \/ (exists last,
              fetch_data E url w
              = (Raise (PyError RuntimeError (fetch_failed_msg E last)), w')
              /\ requests w' = (requests w + Z.to_nat (MAX_RETRIES E))%nat)
        \/ (fetch_data E url w
            = (Raise (PyError OverflowError (fault_text E SleepTooLong)), w')
            /\ exists i, 1 <= i <= MAX_RETRIES E /\ sleep_max < 2 ^ i)).
Proof.
  destruct (fetch_loop_ends E url (Z.to_nat (MAX_RETRIES E)) 1 None w)
    as [w' [Hle Hend]].
  exists w'. split; [exact Hle|].
  destruct Hend as [Hok | [Hfail | [Hl [i [Hi Hover]]]]].
  - left. exact Hok.
  - right. left. exact Hfail.
  - right. right. split; [exact Hl|]. exists i. split; [lia|exact Hover].
Qed.

(** X22: with [MAX_RETRIES] of 34 or more and the first 34 requests
    ending in an exception, [fetch_data] never makes request 35: after
    sleeping [2 ** 1], ..., [2 ** 33] seconds, [time.sleep(2 ** 34)]
    raises [OverflowError] in the [except] block of attempt 34, and that
    exception, not [RuntimeError], leaves [fetch_data]. *)
Theorem fetch_data_overflows_at_attempt_34 (E : env) (url : pystr) (w : world) :
  34 <= MAX_RETRIES E ->
  forallb raised (outcomes_from E (requests w) 34) = true ->
  exists w',
    fetch_data E url w
    = (Raise (PyError OverflowError (fault_text E SleepTooLong)), w')
    /\ requests w' = (requests w + 34)%nat
    /\ sleeps (trace w') = rev (backoff 1 33) ++ sleeps (trace w).
Proof.
  intros Hmax Hall. unfold fetch_data.
  assert (Hn : exists n, Z.to_nat (MAX_RETRIES E) = (33 + S n)%nat).
  { exists (Z.to_nat (MAX_RETRIES E) - 34)%nat. lia. }
  destruct Hn as [n Hn]. rewrite Hn.
  change 34%nat with (33 + 1)%nat in Hall. unfold outcomes_from in Hall.
  rewrite seq_app, map_app, forallb_app in Hall.
  apply andb_true_iff in Hall. destruct Hall as [Hfirst Hlast].
  destruct (fetch_loop_after_failures E url 33 (S n) 1 None w) as
    [w1 [last [Hl [_ [Hs Hr]]]]].
  - intros i Hi. apply Z.le_trans with (2 ^ 33); [|vm_compute; discriminate].
    apply Z.pow_le_mono_r; lia.
  - exact Hfirst.
  - rewrite Hl. cbn [fetch_loop]. unfold bind.
    cbn [seq map forallb] in Hlast. rewrite andb_true_r in Hlast.
    rewrite <- Hr in Hlast.
    destruct (raised_failed E _ Hlast) as [e Hv].
    destruct (fetch_attempt_overflows E url (1 + Z.of_nat 33) last w1 e Hv
                ltac:(vm_compute; reflexivity)) as [w' [Ha [Hr' Hs']]].
    exists w'. rewrite Ha. split; [reflexivity|]. split; [lia|].
    rewrite Hs', Hs. reflexivity.
Qed.

Lemma fetch_data_overflows_at_attempt_34_witness :
  exists w',
    fetch_data (refused 40) [] w0
    = (Raise (PyError OverflowError (fault_text (refused 40) SleepTooLong)), w')
    /\ requests w' = 34%nat
    /\ sleeps (trace w') = rev (backoff 1 33) ++ sleeps (trace w0).
Proof.
  apply (fetch_data_overflows_at_attempt_34 (refused 40) [] w0).
  - cbn. lia.
  - reflexivity.
Defined.

(** ** The handler: further properties *)

Lemma keeps_ret {A X} (f : world -> X) (a : A) : keeps f (ret a).
Proof. intros w. reflexivity. Qed.

Lemma keeps_raise {A X} (f : world -> X) (e : exc) : keeps f (@raise A e).
Proof. intros w. reflexivity. Qed.

Lemma keeps_bind {A B X} (f : world -> X) (m : M A) (k : A -> M B) :
  keeps f m -> (forall a, keeps f (k a)) -> keeps f (bind m k).
Proof.
  intros Hm Hk w. unfold bind. specialize (Hm w).
  destruct (m w) as [[a|e] w1]; cbn [snd] in *.
  - rewrite <- Hm. apply Hk.
  - exact Hm.
Qed.

Lemma keeps_try_catch {A X} (f : world -> X) (m : M A) (h : exc -> M A) :
  keeps f m -> (forall e, keeps f (h e)) -> keeps f (try_catch m h).
Proof.
  intros Hm Hh w. unfold try_catch. specialize (Hm w).
  destruct (m w) as [[a|e] w1]; cbn [snd] in *.
  - exact Hm.
  - rewrite <- Hm. apply Hh.
Qed.

Lemma keeps_requests_tick : keeps requests tick.
Proof. intros w. reflexivity. Qed.

Lemma keeps_requests_next_metric_call : keeps requests next_metric_call.
Proof. intros w. reflexivity. Qed.

Lemma keeps_requests_emit (e : event) : keeps requests (emit e).
Proof. intros w. reflexivity. Qed.

Lemma keeps_metrics_tick : keeps metrics_of tick.
Proof. intros w. reflexivity. Qed.

Lemma keeps_metrics_next_request : keeps metrics_of next_request.
Proof. intros w. reflexivity. Qed.

Lemma keeps_metrics_emit (e : event) :
  match e with EMetric _ _ _ => False | _ => True end ->
  keeps metrics_of (emit e).
Proof. intros He w. destruct e; try contradiction; reflexivity. Qed.

Create HintDb keeps.
#[export] Hint Resolve keeps_ret keeps_raise keeps_requests_tick
  keeps_requests_next_metric_call keeps_requests_emit keeps_metrics_tick
  keeps_metrics_next_request : keeps.

Ltac keeps_step :=
  first
    [ solve [auto with keeps]
    | apply keeps_bind; [|intro]
    | apply keeps_try_catch; [|intro]
    | apply keeps_metrics_emit; exact I
    | match goal with
      | |- keeps _ (match ?x with _ => _ end) => destruct x
      | |- keeps _ (let (_, _) := ?x in _) => destruct x
      end ].

Ltac keeps_auto := repeat keeps_step.

Section HandlingMore.

Variable E : env.

Lemma keeps_requests_log (level step : string) (msg : log_msg) :
  keeps requests (log E level step msg).
Proof. unfold log, now_iso. keeps_auto. Qed.

Lemma keeps_metrics_log (level step : string) (msg : log_msg) :
  keeps metrics_of (log E level step msg).
Proof. unfold log, now_iso. keeps_auto. Qed.

Lemma keeps_metrics_sleep (seconds : Z) : keeps metrics_of (sleep E seconds).
Proof. unfold sleep, interp_error. keeps_auto. Qed.

Hint Resolve keeps_requests_log keeps_metrics_log keeps_metrics_sleep : keeps.

Lemma keeps_requests_health_check : keeps requests (health_check E).
Proof. unfold health_check. keeps_auto. Qed.

Lemma keeps_metrics_health_check : keeps metrics_of (health_check E).
Proof. unfold health_check. keeps_auto. Qed.

Lemma keeps_metrics_fetch_data (url : pystr) : keeps metrics_of (fetch_data E url).
Proof.
  unfold fetch_data. generalize 1 (@None exc).
  induction (Z.to_nat (MAX_RETRIES E)) as [|n IH];
    intros attempt last_error; cbn [fetch_loop].
  - keeps_auto.
  - unfold fetch_attempt, try_request, retry_after_of, py_len, interp_error.
    keeps_auto.
Qed.

Lemma keeps_requests_validate_item (item : pyval) :
  keeps requests (validate_item E item).
Proof.
  unfold validate_item.
  induction required as [|field rest IH]; cbn [validate_fields].
  - keeps_auto.
  - unfold py_contains, py_get, py_subscript, interp_error. keeps_auto.
Qed.

Lemma keeps_metrics_validate_item (item : pyval) :
  keeps metrics_of (validate_item E item).
Proof.
  unfold validate_item.
  induction required as [|field rest IH]; cbn [validate_fields].
  - keeps_auto.
  - unfold py_contains, py_get, py_subscript, interp_error. keeps_auto.
Qed.

Lemma keeps_requests_transform_item (item : pyval) :
  keeps requests (transform_item E item).
Proof.
  unfold transform_item, py_subscript, now_iso, interp_error. keeps_auto.
Qed.

Lemma keeps_metrics_transform_item (item : pyval) :
  keeps metrics_of (transform_item E item).
Proof.
  unfold transform_item, py_subscript, now_iso, interp_error. keeps_auto.
Qed.

Hint Resolve keeps_requests_health_check keeps_metrics_health_check
  keeps_metrics_fetch_data keeps_requests_validate_item
  keeps_metrics_validate_item keeps_requests_transform_item
  keeps_metrics_transform_item : keeps.

Lemma keeps_requests_process_data (raw : pyval) :
  keeps requests (process_data E raw).
Proof.
  unfold process_data, py_iter, interp_error.
  assert (Hloop : forall items st, keeps requests (process_loop E items st)).
  { induction items as [|item rest IH]; intros st; cbn [process_loop].
    - keeps_auto.
    - unfold process_step. keeps_auto. }
  keeps_auto.
Qed.

Lemma keeps_metrics_process_data (raw : pyval) :
  keeps metrics_of (process_data E raw).
Proof.
  unfold process_data, py_iter, interp_error.
  assert (Hloop : forall items st, keeps metrics_of (process_loop E items st)).
  { induction items as [|item rest IH]; intros st; cbn [process_loop].
    - keeps_auto.
    - unfold process_step. keeps_auto. }
  keeps_auto.
Qed.

Hint Resolve keeps_requests_process_data keeps_metrics_process_data : keeps.

Lemma keeps_metrics_fetch_and_process : keeps metrics_of (fetch_and_process E).
Proof. unfold fetch_and_process. keeps_auto. Qed.

End HandlingMore.

Section Runs.

Variable E : env.

Lemma lambda_handler_unfold (w : world) :
  lambda_handler E w
  = try_catch (pipeline E (time_time E (clock_reads w)))
      (on_exception E (time_time E (clock_reads w))) (at_try E w).
Proof. reflexivity. Qed.

Lemma on_exception_run (start : N) (e : exc) (w : world) :
  exists w',
    on_exception E start e w = (Ok (Resp500 (str_exc e)), w')
    /\ requests w' = requests w
    /\ store_calls (trace w') = store_calls (trace w)
    /\ metrics_of w' = EMetric "Errors" (MCount 1) "Count" :: metrics_of w.
Proof.
  unfold on_exception, put_metric, log, now_iso, time_now.
  unfold bind, tick, emit, next_metric_call, ret.
  cbn [clock_reads requests metric_calls trace].
  destruct (put_metric_data E (metric_calls w)) as [exc|];
    eexists; repeat split.
Qed.

Lemma pipeline_raises (start : N) (w1 w2 : world) (e : exc) :
  fetch_and_process E w1 = (Raise e, w2) ->
  pipeline E start w1 = (Raise e, w2).
Proof. intros H. unfold pipeline, bind. rewrite H. reflexivity. Qed.

Lemma pipeline_empty (start : N) (w1 w2 : world) :
  fetch_and_process E w1 = (Ok [], w2) ->
  pipeline E start w1
  = (Raise (PyError ValueError (u "No valid records after validation")), w2).
Proof. intros H. unfold pipeline, bind. rewrite H. reflexivity. Qed.

Lemma pipeline_store_fails (start : N) (w1 w2 : world) (r : normalized)
    (rest : list normalized) (e : exc) :
  fetch_and_process E w1 = (Ok (r :: rest), w2) ->
  batch_writer E (r :: rest) = Some e ->
  exists w',
    pipeline E start w1 = (Raise e, w')
    /\ requests w' = requests w2
    /\ store_calls (trace w') = (r :: rest) :: store_calls (trace w2)
    /\ metrics_of w' = metrics_of w2.
Proof.
  intros H Hb. unfold pipeline, bind at 1. rewrite H.
  unfold bind at 1, store_data, bind at 1, emit. rewrite Hb.
  eexists. repeat split.
Qed.

Lemma pipeline_stored (start : N) (w1 w2 : world) (r : normalized)
    (rest : list normalized) :
  fetch_and_process E w1 = (Ok (r :: rest), w2) ->
  batch_writer E (r :: rest) = None ->
  exists w',
    pipeline E start w1
    = (Ok (Resp200 (Z.of_nat (length (r :: rest))) start
             (time_time E (S (clock_reads w2)))), w')
    /\ requests w' = requests w2
    /\ store_calls (trace w') = (r :: rest) :: store_calls (trace w2)
    /\ metrics_of w'
       = reported (Resp200 (Z.of_nat (length (r :: rest))) start
                     (time_time E (S (clock_reads w2))))
         ++ metrics_of w2.
Proof.
  intros H Hb. unfold pipeline, bind at 1. rewrite H.
  unfold store_data, put_metric, log, now_iso, time_now.
  unfold bind, tick, emit, next_metric_call, ret. rewrite Hb.
  cbn [clock_reads requests metric_calls trace].
  destruct (put_metric_data E (metric_calls w2)) as [e1|];
    cbn [clock_reads requests metric_calls trace];
    destruct (put_metric_data E (S (metric_calls w2))) as [e2|];
    cbn [clock_reads requests metric_calls trace];
    destruct (put_metric_data E (S (S (metric_calls w2)))) as [e3|];
    eexists; repeat split.
Qed.

End Runs.

Section RunsMore.

Variable E : env.

Lemma health_check_run (w : world) :
  exists w',
    health_check E w
    = (Ok (match describe_table E with
           | Ok status => str_eqb status (u "ACTIVE")
           | Raise _ => false
           end), w')
    /\ requests w' = requests w
    /\ store_calls (trace w') = store_calls (trace w)
    /\ clock_reads w' = S (clock_reads w).
Proof.
  unfold health_check, log, now_iso. unfold bind, tick, emit, ret.
  destruct (describe_table E) as [status|e]; eexists; repeat split.
Qed.

Lemma at_try_frame (w : world) :
  requests (at_try E w) = requests w
  /\ store_calls (trace (at_try E w)) = store_calls (trace w)
  /\ metrics_of (at_try E w) = metrics_of w.
Proof. repeat split. Qed.

Lemma fetch_and_process_requests (w : world) :
  (requests (snd (fetch_and_process E w))
   <= requests w + Z.to_nat (MAX_RETRIES E))%nat.
Proof.
  unfold fetch_and_process, bind.
  pose proof (keeps_requests_health_check E w) as Hh.
  destruct (health_check E w) as [[b|e] w1]; cbn [snd] in *; [|lia].
  destruct b; cbn [negb]; [|cbn; lia].
  unfold ret at 1.
  destruct (fetch_loop_ends E (API_URL E) (Z.to_nat (MAX_RETRIES E)) 1 None w1)
    as [w2 [Hle [[data [Hf _]] | [[last [Hf _]] | [Hf _]]]]];
    unfold fetch_data; rewrite Hf; cbn [snd]; [|lia|lia].
  pose proof (keeps_requests_process_data E data w2) as Hp. lia.
Qed.

(** How a run ends, with what it has sent, stored and requested. *)
Lemma lambda_handler_run (w : world) :
  exists resp w',
    lambda_handler E w = (Ok resp, w')
    /\ metrics_of w' = reported resp ++ metrics_of w
    /\ (requests w' <= requests w + Z.to_nat (MAX_RETRIES E))%nat
    /\ match resp with
       | Resp200 stored t_start t_end =>
           exists r rest,
             stored = Z.of_nat (length (r :: rest))
             /\ t_start = time_time E (clock_reads w)
             /\ batch_writer E (r :: rest) = None
             /\ store_calls (trace w') = (r :: rest) :: store_calls (trace w)
       | Resp500 _ =>
           store_calls (trace w') = store_calls (trace w)
           \/ exists batch e,
                batch_writer E batch = Some e
                /\ store_calls (trace w') = batch :: store_calls (trace w)
       end.
Proof.
  rewrite lambda_handler_unfold. unfold try_catch.
  destruct (at_try_frame w) as [Hreq [Hst Hmt]].
  pose proof (fetch_and_process_requests (at_try E w)) as Hbound.
  pose proof (no_store_fetch_and_process E (at_try E w)) as Hns.
  pose proof (keeps_metrics_fetch_and_process E (at_try E w)) as Hkm.
  rewrite Hreq in Hbound. rewrite Hst in Hns. rewrite Hmt in Hkm.
  destruct (fetch_and_process E (at_try E w)) as [[[|r rest]|e] w2] eqn:Hfp;
    cbn [snd] in *.
  - rewrite (pipeline_empty E _ _ _ Hfp).
    destruct (on_exception_run E (time_time E (clock_reads w))
                (PyError ValueError (u "No valid records after validation")) w2)
      as [w' [Hx [Hr [Hs Hm]]]].
    exists (Resp500 (u "No valid records after validation")), w'.
    split; [exact Hx|]. split; [rewrite Hm, Hkm; reflexivity|].
    split; [lia|]. left. rewrite Hs. exact Hns.
  - destruct (batch_writer E (r :: rest)) as [e|] eqn:Hb.
    + destruct (pipeline_store_fails E (time_time E (clock_reads w)) _ _ _ _ e Hfp Hb)
        as [w3 [Hp [Hr3 [Hs3 Hm3]]]].
      rewrite Hp.
      destruct (on_exception_run E (time_time E (clock_reads w)) e w3)
        as [w' [Hx [Hr [Hs Hm]]]].
      exists (Resp500 (str_exc e)), w'.
      split; [exact Hx|]. split; [rewrite Hm, Hm3, Hkm; reflexivity|].
      split; [lia|]. right. exists (r :: rest), e.
      split; [exact Hb|]. rewrite Hs, Hs3, Hns. reflexivity.
    + destruct (pipeline_stored E (time_time E (clock_reads w)) _ _ _ _ Hfp Hb)
        as [w' [Hp [Hr [Hs Hm]]]].
      rewrite Hp. eexists. exists w'.
      split; [reflexivity|]. split; [rewrite Hm, Hkm; reflexivity|].
      split; [lia|]. exists r, rest. repeat split; try assumption.
      rewrite Hs, Hns. reflexivity.
  - rewrite (pipeline_raises E _ _ _ _ Hfp).
    destruct (on_exception_run E (time_time E (clock_reads w)) e w2)
      as [w' [Hx [Hr [Hs Hm]]]].
    exists (Resp500 (str_exc e)), w'.
    split; [exact Hx|]. split; [rewrite Hm, Hkm; reflexivity|].
    split; [lia|]. left. rewrite Hs. exact Hns.
Qed.

End RunsMore.

(** X12: [health_check] never raises.  It returns [True] exactly when
    [describe_table] answers and the status it gives is "ACTIVE"; any
    other status, and any exception of the client, gives [False].  Either
    way it logs one line and makes no HTTP request. *)
Theorem health_check_never_raises (E : env) (w : world) :
  exists b w',
    health_check E w = (Ok b, w')
    /\ (b = true <-> describe_table E = Ok (u "ACTIVE"))
    /\ requests w' = requests w
    /\ clock_reads w' = S (clock_reads w).
Proof.
  destruct (health_check_run E w) as [w' [Hh [Hr [_ Hc]]]].
  eexists. exists w'. split; [exact Hh|]. split; [|split; assumption].
  destruct (describe_table E) as [status|e].
  - rewrite str_eqb_eq. split.
    + intros ->. reflexivity.
    + intros H. inversion H. reflexivity.
  - split; discriminate.
Qed.

(** X13: [lambda_handler] never raises: every run returns a response.
    A run sends the Errors metric exactly once, with value 1 and nothing
    else when the response is a 500, and with value 0 after
    ProcessedRecords and ExecutionDurationMs when it is a 200; a failure
    of the CloudWatch client changes none of this. *)
Theorem lambda_handler_always_reports (E : env) (w : world) :
  exists resp w',
    lambda_handler E w = (Ok resp, w')
    /\ metric_events (trace w')
       = match resp with
         | Resp500 _ => [EMetric "Errors" (MCount 1) "Count"]
         | Resp200 stored t_start t_end =>
             [EMetric "Errors" (MCount 0) "Count";
              EMetric "ExecutionDurationMs" (MDuration t_start t_end)
                "Milliseconds";
              EMetric "ProcessedRecords" (MCount stored) "Count"]
         end ++ metric_events (trace w).
Proof.
  destruct (lambda_handler_run E w) as [resp [w' [Hl [Hm _]]]].
  exists resp, w'. split; [exact Hl|]. exact Hm.
Qed.

(** X14: a run makes at most [MAX_RETRIES] HTTP requests and hands at
    most one batch to the store. *)
Theorem lambda_handler_is_bounded (E : env) (w : world) :
  exists resp w',
    lambda_handler E w = (Ok resp, w')
    /\ (requests w' <= requests w + Z.to_nat (MAX_RETRIES E))%nat
    /\ (store_calls (trace w') = store_calls (trace w)
        \/ exists batch, store_calls (trace w') = batch :: store_calls (trace w)).
Proof.
  destruct (lambda_handler_run E w) as [resp [w' [Hl [_ [Hr Hs]]]]].
  exists resp, w'. split; [exact Hl|]. split; [exact Hr|].
  destruct resp as [stored t0 t1|err].
  - destruct Hs as [r [rest [_ [_ [_ Hs]]]]]. right. eexists. exact Hs.
  - destruct Hs as [Hs | [batch [e [_ Hs]]]]; [left; exact Hs|].
    right. exists batch. exact Hs.
Qed.

(** X15: a 200 response means records were written: the run handed
    exactly one batch to the store, the batch is not empty, the store
    accepted it, and [stored] is its size, so [stored] is at least 1. *)
Theorem success_means_stored (E : env) (w w' : world) (stored : Z)
    (t_start t_end : N) :
  lambda_handler E w = (Ok (Resp200 stored t_start t_end), w') ->
  exists batch,
    store_calls (trace w') = batch :: store_calls (trace w)
    /\ batch_writer E batch = None
    /\ stored = Z.of_nat (length batch)
    /\ 1 <= stored.
Proof.
  intros H.
  destruct (lambda_handler_run E w) as [resp [w1 [Hl [_ [_ Hs]]]]].
  rewrite H in Hl. inversion Hl. subst resp w1.
  destruct Hs as [r [rest [Hn [_ [Hb Hs]]]]].
  exists (r :: rest). repeat split; try assumption.
  rewrite Hn. cbn [length]. lia.
Qed.

Lemma success_means_stored_witness :
  exists batch,
    store_calls
      (trace (snd (lambda_handler two_posts w0)))
    = batch :: store_calls (trace w0)
    /\ batch_writer two_posts batch = None
    /\ 1 = Z.of_nat (length batch)
    /\ 1 <= 1.
Proof.
  eapply (success_means_stored two_posts w0).
  vm_compute. reflexivity.
Defined.

(** X16: when the table is not ACTIVE, or [describe_table] raises, the
    run fails with "DynamoDB table '<TABLE_NAME>' is not available"
    without making any HTTP request or store call. *)
Theorem unavailable_table_stops_the_run (E : env) (w : world) :
  describe_table E <> Ok (u "ACTIVE") ->
  exists w',
    lambda_handler E w
    = (Ok (Resp500 (u "DynamoDB table '" ++ TABLE_NAME E
                      ++ u "' is not available")), w')
    /\ requests w' = requests w
    /\ store_calls (trace w') = store_calls (trace w).
Proof.
  intros Hd.
  destruct (health_check_run E (at_try E w)) as [w1 [Hh [Hr1 [Hs1 _]]]].
  assert (Hb : match describe_table E with
               | Ok status => str_eqb status (u "ACTIVE")
               | Raise _ => false
               end = false).
  { destruct (describe_table E) as [status|e]; [|reflexivity].
    destruct (str_eqb status (u "ACTIVE")) eqn:Hs; [|reflexivity].
    apply str_eqb_eq in Hs. subst status. contradiction Hd. reflexivity. }
  rewrite Hb in Hh.
  assert (Hfp : fetch_and_process E (at_try E w)
                = (Raise (PyError RuntimeError
                            (u "DynamoDB table '" ++ TABLE_NAME E
                               ++ u "' is not available")), w1)).
  { unfold fetch_and_process, bind. rewrite Hh. reflexivity. }
  rewrite lambda_handler_unfold. unfold try_catch.
  rewrite (pipeline_raises E _ _ _ _ Hfp).
  destruct (on_exception_run E (time_time E (clock_reads w))
              (PyError RuntimeError
                 (u "DynamoDB table '" ++ TABLE_NAME E
                    ++ u "' is not available")) w1)
    as [w' [Hx [Hr [Hs _]]]].
  exists w'. split; [exact Hx|]. split.
  - rewrite Hr, Hr1. reflexivity.
  - rewrite Hs, Hs1. reflexivity.
Qed.

Lemma unavailable_table_stops_the_run_witness :
  exists w',
    lambda_handler creating_table w0
    = (Ok (Resp500 (u "DynamoDB table 'iac-data-store' is not available")), w')
    /\ requests w' = requests w0
    /\ store_calls (trace w') = store_calls (trace w0).
Proof.
  apply (unavailable_table_stops_the_run creating_table w0).
  cbn. discriminate.
Defined.

(** X17: when the table is ACTIVE, none of the [MAX_RETRIES] attempts
    fetches the data and every backoff is a length [time.sleep] accepts
    ([2 ^ MAX_RETRIES <= sleep_max], that is [MAX_RETRIES <= 33]), the
    run fails with the message of [fetch_data], "Fetch failed after
    <MAX_RETRIES> attempts: <last_error>", after exactly [MAX_RETRIES]
    requests, and neither processes nor stores anything. *)
Theorem exhausted_fetch_stops_the_run (E : env) (w : world) :
  describe_table E = Ok (u "ACTIVE") ->
  2 ^ MAX_RETRIES E <= sleep_max ->
  all_unsuccessful E
    (outcomes_from E (requests w) (Z.to_nat (MAX_RETRIES E))) = true ->
  exists w',
    lambda_handler E w
    = (Ok (Resp500
             (fetch_failed_msg E
                (last_error_after E
                   (outcomes_from E (requests w) (Z.to_nat (MAX_RETRIES E)))
                   None))), w')
    /\ requests w' = (requests w + Z.to_nat (MAX_RETRIES E))%nat
    /\ store_calls (trace w') = store_calls (trace w).
Proof.
  intros Hd Hfit Hall.
  destruct (health_check_run E (at_try E w)) as [w1 [Hh [Hr1 [Hs1 _]]]].
  rewrite Hd in Hh.
  assert (Hreq : requests w1 = requests w) by exact Hr1.
  rewrite <- Hreq in Hall.
  destruct (fetch_loop_exhausted E (API_URL E) _ 1 None w1
              (backoff_fits (MAX_RETRIES E) Hfit) Hall)
    as [w2 [Hf Hr2]].
  assert (Hfp : fetch_and_process E (at_try E w)
                = (Raise (PyError RuntimeError
                            (fetch_failed_msg E
                               (last_error_after E
                                  (outcomes_from E (requests w1)
                                     (Z.to_nat (MAX_RETRIES E))) None))), w2)).
  { assert (Ht : str_eqb (u "ACTIVE") (u "ACTIVE") = true) by reflexivity.
    rewrite Ht in Hh.
    unfold fetch_and_process, bind. rewrite Hh. cbn [negb].
    unfold ret at 1. unfold fetch_data. rewrite Hf. reflexivity. }
  pose proof (no_store_fetch_and_process E (at_try E w)) as Hns.
  rewrite Hfp in Hns. cbn [snd] in Hns.
  rewrite lambda_handler_unfold. unfold try_catch.
  rewrite (pipeline_raises E _ _ _ _ Hfp).
  destruct (on_exception_run E (time_time E (clock_reads w))
              (PyError RuntimeError
                 (fetch_failed_msg E
                    (last_error_after E
                       (outcomes_from E (requests w1)
                          (Z.to_nat (MAX_RETRIES E))) None))) w2)
    as [w' [Hx [Hr [Hs _]]]].
  exists w'. rewrite <- Hreq. split; [exact Hx|]. split.
  - rewrite Hr, Hr2. reflexivity.
  - rewrite Hs, Hns. reflexivity.
Qed.

Lemma exhausted_fetch_stops_the_run_witness :
  exists w',
    lambda_handler offline w0
    = (Ok (Resp500 (u "Fetch failed after 3 attempts: unreachable")), w')
    /\ requests w' = 3%nat
    /\ store_calls (trace w') = store_calls (trace w0).
Proof.
  apply (exhausted_fetch_stops_the_run offline w0);
    [reflexivity | vm_compute; discriminate | reflexivity].
Defined.

(** X18: when health check, fetch and processing yield at least one
    record and the store accepts the batch, the run returns a 200 whose
    [stored] is the number of accepted records; the store was handed
    that batch, once, and the duration ends after the store call, before
    any metric is sent. *)
Theorem accepted_records_are_stored (E : env) (w w2 : world) (r : normalized)
    (rest : list normalized) :
  fetch_and_process E (at_try E w) = (Ok (r :: rest), w2) ->
  batch_writer E (r :: rest) = None ->
  exists w',
    lambda_handler E w
    = (Ok (Resp200 (Z.of_nat (length (r :: rest)))
             (time_time E (clock_reads w))
             (time_time E (S (clock_reads w2)))), w')
    /\ store_calls (trace w') = (r :: rest) :: store_calls (trace w).
Proof.
  intros Hfp Hb.
  pose proof (no_store_fetch_and_process E (at_try E w)) as Hns.
  rewrite Hfp in Hns. cbn [snd] in Hns.
  destruct (pipeline_stored E (time_time E (clock_reads w)) _ _ _ _ Hfp Hb)
    as [w' [Hp [_ [Hs _]]]].
  exists w'. rewrite lambda_handler_unfold. unfold try_catch. rewrite Hp.
  split; [reflexivity|]. rewrite Hs, Hns. reflexivity.
Qed.

Lemma accepted_records_are_stored_witness :
  exists w',
    lambda_handler two_posts w0
    = (Ok (Resp200 1 0%N 10%N), w')
    /\ store_calls (trace w')
       = [{| rec_id := u "1"; rec_timestamp := u "2026-01-01T00:00:05";
             rec_title := u "sunt aut facere"; rec_body := u "quia et suscipit";
             rec_user_id := u "7"; rec_source_url := API_URL two_posts;
             rec_processed_at := u "2026-01-01T00:00:06" |}]
         :: store_calls (trace w0).
Proof.
  pose proof (accepted_records_are_stored two_posts w0
                (snd (fetch_and_process two_posts (at_try two_posts w0)))
                {| rec_id := u "1"; rec_timestamp := u "2026-01-01T00:00:05";
                   rec_title := u "sunt aut facere";
                   rec_body := u "quia et suscipit";
                   rec_user_id := u "7"; rec_source_url := API_URL two_posts;
                   rec_processed_at := u "2026-01-01T00:00:06" |} []
                ltac:(vm_compute; reflexivity) eq_refl) as H.
  vm_compute in H |- *. exact H.
Defined.

(** X19: when the store refuses the batch, the run fails with the text
    of the store's exception; the batch was handed to the store, and no
    ProcessedRecords metric is sent. *)
Theorem store_failure_fails_the_run (E : env) (w w2 : world) (r : normalized)
    (rest : list normalized) (e : exc) :
  fetch_and_process E (at_try E w) = (Ok (r :: rest), w2) ->
  batch_writer E (r :: rest) = Some e ->
  exists w',
    lambda_handler E w = (Ok (Resp500 (str_exc e)), w')
    /\ store_calls (trace w') = (r :: rest) :: store_calls (trace w)
    /\ metric_events (trace w')
       = EMetric "Errors" (MCount 1) "Count" :: metric_events (trace w).
Proof.
  intros Hfp Hb.
  pose proof (no_store_fetch_and_process E (at_try E w)) as Hns.
  pose proof (keeps_metrics_fetch_and_process E (at_try E w)) as Hkm.
  rewrite Hfp in Hns, Hkm. cbn [snd] in Hns, Hkm.
  destruct (pipeline_store_fails E (time_time E (clock_reads w)) _ _ _ _ e Hfp Hb)
    as [w3 [Hp [_ [Hs3 Hm3]]]].
  destruct (on_exception_run E (time_time E (clock_reads w)) e w3)
    as [w' [Hx [_ [Hs Hm]]]].
  exists w'. rewrite lambda_handler_unfold. unfold try_catch. rewrite Hp.
  split; [exact Hx|]. split.
  - rewrite Hs, Hs3, Hns. reflexivity.
  - change (metrics_of w' = EMetric "Errors" (MCount 1) "Count" :: metrics_of w).
    rewrite Hm, Hm3, Hkm. reflexivity.
Qed.

Lemma store_failure_fails_the_run_witness :
  exists w',
    lambda_handler store_down w0
    = (Ok (Resp500 (u "ProvisionedThroughputExceededException")), w')
    /\ store_calls (trace w')
       = [{| rec_id := u "1"; rec_timestamp := u "2026-01-01T00:00:05";
             rec_title := u "sunt aut facere"; rec_body := u "quia et suscipit";
             rec_user_id := u "7"; rec_source_url := API_URL store_down;
             rec_processed_at := u "2026-01-01T00:00:06" |}]
         :: store_calls (trace w0)
    /\ metric_events (trace w')
       = EMetric "Errors" (MCount 1) "Count" :: metric_events (trace w0).
Proof.
  pose proof (store_failure_fails_the_run store_down w0
                (snd (fetch_and_process store_down (at_try store_down w0)))
                {| rec_id := u "1"; rec_timestamp := u "2026-01-01T00:00:05";
                   rec_title := u "sunt aut facere";
                   rec_body := u "quia et suscipit";
                   rec_user_id := u "7"; rec_source_url := API_URL store_down;
                   rec_processed_at := u "2026-01-01T00:00:06" |} []
                (PyError OtherError (u "ProvisionedThroughputExceededException"))
                ltac:(vm_compute; reflexivity) eq_refl) as H.
  vm_compute in H |- *. exact H.
Defined.

(** ** The handler: metrics do not interfere *)

Section MetricsClient.

Variable E : env.
Variable client : nat -> option exc.

Let E' : env := with_put_metric_data E client.

(** Nothing before the metrics reads the CloudWatch client: the two
    computations are the same function of the world. *)
Lemma fetch_and_process_same_client (w : world) :
  fetch_and_process E' w = fetch_and_process E w.
Proof. reflexivity. Qed.

(** X20: the response of a run, and what it hands to the store, do not
    depend on the CloudWatch client: with any other client, failing or
    not, [lambda_handler] returns the same response and makes the same
    store calls. *)
Theorem metrics_do_not_change_the_result (w : world) :
  fst (lambda_handler (with_put_metric_data E client) w)
  = fst (lambda_handler E w)
  /\ store_calls (trace (snd (lambda_handler (with_put_metric_data E client) w)))
     = store_calls (trace (snd (lambda_handler E w))).
Proof.
  fold E'. rewrite !lambda_handler_unfold. unfold try_catch.
  change (at_try E' w) with (at_try E w).
  change (time_time E' (clock_reads w)) with (time_time E (clock_reads w)).
  pose proof (fetch_and_process_same_client (at_try E w)) as Hsame.
  destruct (fetch_and_process E (at_try E w)) as [[[|r rest]|e] w2] eqn:Hfp.
  - rewrite (pipeline_empty E' _ _ _ Hsame), (pipeline_empty E _ _ _ Hfp).
    destruct (on_exception_run E' (time_time E (clock_reads w))
                (PyError ValueError (u "No valid records after validation")) w2)
      as [w1' [Hx' [_ [Hs' _]]]].
    destruct (on_exception_run E (time_time E (clock_reads w))
                (PyError ValueError (u "No valid records after validation")) w2)
      as [w1 [Hx [_ [Hs _]]]].
    rewrite Hx', Hx. cbn [fst snd]. split; [reflexivity|congruence].
  - destruct (batch_writer E (r :: rest)) as [e|] eqn:Hb.
    + destruct (pipeline_store_fails E' (time_time E (clock_reads w))
                  _ _ _ _ e Hsame Hb) as [w3' [Hp' [_ [Hs3' _]]]].
      destruct (pipeline_store_fails E (time_time E (clock_reads w))
                  _ _ _ _ e Hfp Hb) as [w3 [Hp [_ [Hs3 _]]]].
      rewrite Hp', Hp.
      destruct (on_exception_run E' (time_time E (clock_reads w)) e w3')
        as [w1' [Hx' [_ [Hs' _]]]].
      destruct (on_exception_run E (time_time E (clock_reads w)) e w3)
        as [w1 [Hx [_ [Hs _]]]].
      rewrite Hx', Hx. cbn [fst snd]. split; [reflexivity|congruence].
    + destruct (pipeline_stored E' (time_time E (clock_reads w))
                  _ _ _ _ Hsame Hb) as [w1' [Hp' [_ [Hs' _]]]].
      destruct (pipeline_stored E (time_time E (clock_reads w))
                  _ _ _ _ Hfp Hb) as [w1 [Hp [_ [Hs _]]]].
      rewrite Hp', Hp. cbn [fst snd]. split; [reflexivity|congruence].
  - rewrite (pipeline_raises E' _ _ _ _ Hsame), (pipeline_raises E _ _ _ _ Hfp).
    destruct (on_exception_run E' (time_time E (clock_reads w)) e w2)
      as [w1' [Hx' [_ [Hs' _]]]].
    destruct (on_exception_run E (time_time E (clock_reads w)) e w2)
      as [w1 [Hx [_ [Hs _]]]].
    rewrite Hx', Hx. cbn [fst snd]. split; [reflexivity|congruence].
Qed.

End MetricsClient.

(** X21: [put_metric] never raises.  It calls the CloudWatch client once;
    when the client raises, the exception is swallowed and one WARN line
    of step "metrics" is logged in its place. *)
Theorem put_metric_never_raises (E : env) (name : string)
    (value : metric_value) (unit_name : string) (w : world) :
  exists w',
    put_metric E name value unit_name w = (Ok tt, w')
    /\ metric_calls w' = S (metric_calls w)
    /\ trace w'
       = match put_metric_data E (metric_calls w) with
         | None => EMetric name value unit_name :: trace w
         | Some e =>
             ELog (now E (clock_reads w)) "WARN" "metrics" (LMetricFailed name e)
               :: EMetric name value unit_name :: trace w
         end.
Proof.
  unfold put_metric, log, now_iso.
  unfold bind, tick, emit, next_metric_call, ret.
  cbn [clock_reads requests metric_calls trace].
  destruct (put_metric_data E (metric_calls w)) as [e|];
    eexists; repeat split.
Qed.
